(** * xproperty: observable properties, validators and links

    A shallow embedding of [xproperty.hpp] and [xobserved.hpp].

    An owner ([xobserved<D>]) carries, next to the values of its
    properties, two registries keyed by the byte offset of a property:
    [m_observers] and [m_validators].  Assigning to a property
    ([xproperty::operator=]) folds the proposed value through the
    validators of its offset, stores the outcome in [m_value] and then
    calls the observers of that offset.  Observers are arbitrary
    closures: they may assign to properties of owners they captured by
    reference, which re-enters [operator=].  The embedding therefore
    threads a machine state through every call and bounds the call
    depth with a fuel argument. *)

From stdpp Require Import base option list functions gmap fin_maps strings.

Set Default Proof Using "Type".

(** ** Data model *)

(** [std::size_t] offsets of properties inside their owner
    ([xoffsetof]) and addresses of owner objects. *)
Abbreviation offset := N (only parsing).
Abbreviation owner_id := nat (only parsing).

Section xproperty.

(** [value]: what a property stores (the [T] of [xproperty<T, O, D>]).
    [type_id]: the C++ types the template parameter [V] of
    [operator=], [validate] and [invoke_validators] ranges over, as
    [linb::any] tells them apart.
    [user_exn]: what a user callback may throw.
    [output]: what an observer may pass to the world outside the owners
    (a line it prints, an entry it appends to a log it captured). *)
Context {value type_id user_exn output : Type} `{EqDecision type_id}.

Inductive exn :=
| bad_any_cast
| user_exception (e : user_exn).

(** The part of an owner a callback can see through the
    [const derived_type&] it is handed: the value of the property at
    each offset.  The registries are private members of [xobserved]. *)
Definition props := offset → value.

(** Body of an observer closure, as far as the machine is concerned:
    it returns, reads an owner through a captured reference, assigns to
    a property of a captured owner (the call passes [V] as template
    argument) and goes on, passes something to the outside world and
    goes on, or throws. *)
Inductive prog :=
| Ret
| Read (o : owner_id) (k : props → prog)
| Assign (o : owner_id) (K : offset) (V : type_id) (v : value) (k : prog)
| Output (x : output) (k : prog)
| Throw (e : exn).

(** [std::function<void(const derived_type&)>]: the body, given the
    owner as the argument shows it when the call starts. *)
Definition observer := props → prog.

(** [std::function<V(const derived_type&, V)>]: returns the next
    candidate or throws. *)
Definition validator := props → value → exn + value.

(** [linb::any] holding a [std::function<V(const derived_type&, V)>]:
    the function together with the identity of its type, fixed by [V]. *)
Record any := make_any { any_type : type_id; any_fn : validator }.

(** Modelled from the spec: [linb::any_cast] of [any.hpp], which is not
    among the sources.  It is "a checked type-erasure cast that fails
    loudly, e.g., raises/aborts, if types disagree": the cast to
    [std::function<V(const derived_type&, V)>] yields the stored
    function when the stored type is the requested one and throws
    [bad_any_cast] otherwise. *)
Definition any_cast (V : type_id) (a : any) : exn + validator :=
  if decide (any_type a = V) then inr (any_fn a) else inl bad_any_cast.

(** An owner object: [m_value] of the property at each offset, and the
    two registries of [xobserved]. *)
Record Owner := make_owner {
  m_value : props;
  m_observers : gmap offset (list observer);
  m_validators : gmap offset (list any)
}.

(** What the machine has done so far, in order: the callbacks it has
    called, with their arguments, and what observers have passed to the
    outside world. *)
Inductive event :=
| validator_called (o : owner_id) (K : offset) (f : validator)
    (view : props) (candidate : value)
| observer_called (o : owner_id) (K : offset) (f : observer)
    (view : props)
| said (x : output).

Record machine := make_machine {
  owners : gmap owner_id Owner;
  calls : list event
}.

(** ** The monad of calls *)

(** A call returns, leaves by an exception (the state reached so far
    stays as it is: C++ does not roll back), goes through a reference to
    an object that does not exist, or exceeds the call depth. *)
Inductive outcome (A : Type) :=
| Returned (a : A) (m : machine)
| Thrown (e : exn) (m : machine)
| Undefined
| OutOfFuel.
Global Arguments Returned {A} a m.
Global Arguments Thrown {A} e m.
Global Arguments Undefined {A}.
Global Arguments OutOfFuel {A}.

Definition M (A : Type) := machine → outcome A.

Definition ret {A} (a : A) : M A := λ m, Returned a m.

Definition bind {A B} (c : M A) (f : A → M B) : M B := λ m,
  match c m with
  | Returned a m' => f a m'
  | Thrown e m' => Thrown e m'
  | Undefined => Undefined
  | OutOfFuel => OutOfFuel
  end.

Definition throw {A} (e : exn) : M A := λ m, Thrown e m.

Notation "'let*' x ':=' c 'in' k" := (bind c (λ x, k))
  (at level 10, x name, c at level 100, k at level 200, only parsing).

(** [*this] behind a pointer or reference to an owner. *)
Definition deref (o : owner_id) : M Owner := λ m,
  match owners m !! o with
  | Some ow => Returned ow m
  | None => Undefined
  end.

Definition update (o : owner_id) (f : Owner → Owner) : M unit := λ m,
  match owners m !! o with
  | Some ow => Returned tt
      {| owners := <[o := f ow]> (owners m); calls := calls m |}
  | None => Undefined
  end.

Definition record (ev : event) : M unit := λ m,
  Returned tt {| owners := owners m; calls := calls m ++ [ev] |}.

(** ** xobserved: the registries *)

Definition set_value (K : offset) (v : value) (ow : Owner) : Owner :=
  {| m_value := <[K := v]> (m_value ow);
     m_observers := m_observers ow;
     m_validators := m_validators ow |}.

Definition with_observers (f : gmap offset (list observer) →
    gmap offset (list observer)) (ow : Owner) : Owner :=
  {| m_value := m_value ow;
     m_observers := f (m_observers ow);
     m_validators := m_validators ow |}.

Definition with_validators (f : gmap offset (list any) →
    gmap offset (list any)) (ow : Owner) : Owner :=
  {| m_value := m_value ow;
     m_observers := m_observers ow;
     m_validators := f (m_validators ow) |}.

(** [find], then either [m[I] = { cb }] or [push_back(cb)]. *)
Definition register {C} (I : offset) (cb : C) (reg : gmap offset (list C))
    : gmap offset (list C) :=
  match reg !! I with
  | None => <[I := [cb]]> reg
  | Some l => <[I := l ++ [cb]]> reg
  end.

(** The callbacks [find(I)] leads to; none when it returns [end()]. *)
Definition callbacks_of {C} (reg : gmap offset (list C)) (I : offset)
    : list C :=
  default [] (reg !! I).

Definition observe (I : offset) (cb : observer) : Owner → Owner :=
  with_observers (register I cb).

Definition unobserve (I : offset) : Owner → Owner :=
  with_observers (delete I).

Definition validate (I : offset) (V : type_id) (cb : validator)
    : Owner → Owner :=
  with_validators (register I (make_any V cb)).

Definition unvalidate (I : offset) : Owner → Owner :=
  with_validators (delete I).

(** The loop of [invoke_validators]: cast, call, assign to [v]. *)
Fixpoint validators_loop (o : owner_id) (I : offset) (V : type_id)
    (view : props) (callbacks : list any) (v : value) : M value :=
  match callbacks with
  | [] => ret v
  | it :: rest =>
      match any_cast V it with
      | inl e => throw e
      | inr f =>
          let* _ := record (validator_called o I f view v) in
          match f view v with
          | inl e => throw e
          | inr v' => validators_loop o I V view rest v'
          end
      end
  end.

Definition invoke_validators (o : owner_id) (I : offset) (V : type_id)
    (v : value) : M value :=
  let* this := deref o in
  match m_validators this !! I with
  | Some callbacks => validators_loop o I V (m_value this) callbacks v
  | None => ret v
  end.

(** ** Observers, and the assignments they make *)

Section with_assignment.

(** [operator=] as the callbacks reach it. *)
Variable call : owner_id → offset → type_id → value → M value.

Fixpoint exec (p : prog) : M unit :=
  match p with
  | Ret => ret tt
  | Read o k => λ m,
      match owners m !! o with
      | Some ow => exec (k (m_value ow)) m
      | None => Undefined
      end
  | Assign o K V v k => λ m,
      match call o K V v m with
      | Returned _ m' => exec k m'
      | Thrown e m' => Thrown e m'
      | Undefined => Undefined
      | OutOfFuel => OutOfFuel
      end
  | Output x k => let* _ := record (said x) in exec k
  | Throw e => throw e
  end.

(** The loop of [invoke_observers]: each callback is handed
    [derived_cast()], the owner as it is when the callback starts. *)
Fixpoint observers_loop (o : owner_id) (I : offset)
    (callbacks : list observer) : M unit :=
  match callbacks with
  | [] => ret tt
  | it :: rest =>
      let* this := deref o in
      let* _ := record (observer_called o I it (m_value this)) in
      let* _ := exec (it (m_value this)) in
      observers_loop o I rest
  end.

Definition invoke_observers (o : owner_id) (I : offset) : M unit :=
  let* this := deref o in
  match m_observers this !! I with
  | Some callbacks => observers_loop o I callbacks
  | None => ret tt
  end.

(** [xproperty::operator=] on the property at offset [I] of the owner
    at [o]; [owner()] recovers [o] from the address of the property and
    [derived_type::offset()], here both are given. *)
Definition assign_body (o : owner_id) (I : offset) (V : type_id)
    (value_ : value) : M value :=
  let* v := invoke_validators o I V value_ in
  let* _ := update o (set_value I v) in
  let* _ := invoke_observers o I in
  let* this := deref o in
  ret (m_value this I).

End with_assignment.

Fixpoint assign (fuel : nat) (o : owner_id) (I : offset) (V : type_id)
    (v : value) : M value :=
  match fuel with
  | 0 => λ _, OutOfFuel
  | S fuel' => assign_body (assign fuel') o I V v
  end.

(** ** The macros of xobserved.hpp, as statements of user code *)

Definition XOBSERVE (O : owner_id) (A : offset) (C : observer) : M unit :=
  update O (observe A C).

Definition XUNOBSERVE (O : owner_id) (A : offset) : M unit :=
  update O (unobserve A).

(** [V] is [decltype(O.A)::value_type]. *)
Definition XVALIDATE (O : owner_id) (A : offset) (V : type_id)
    (C : validator) : M unit :=
  update O (validate A V C).

Definition XUNVALIDATE (O : owner_id) (A : offset) : M unit :=
  update O (unvalidate A).

(** [[&S, &T] (const auto&) { T.TA = S.SA; }]: the argument is ignored,
    the source is read through the captured reference.  [V] is the type
    of the expression [S.SA] the assignment is instantiated with. *)
Definition link_callback (V : type_id) (S : owner_id) (SA : offset)
    (T : owner_id) (TA : offset) : observer :=
  λ _, Read S (λ s, Assign T TA V (s SA) Ret).

Definition XDLINK (fuel : nat) (V : type_id) (S : owner_id) (SA : offset)
    (T : owner_id) (TA : offset) : M unit :=
  let* s := deref S in
  let* _ := assign fuel T TA V (m_value s SA) in
  XOBSERVE S SA (link_callback V S SA T TA).

Definition XLINK (fuel : nat) (VS VT : type_id) (S : owner_id)
    (SA : offset) (T : owner_id) (TA : offset) : M unit :=
  let* s := deref S in
  let* _ := assign fuel T TA VS (m_value s SA) in
  let* _ := XOBSERVE S SA (link_callback VS S SA T TA) in
  XOBSERVE T TA (link_callback VT T TA S SA).

(** ** Copies of an owner *)

(** [xobserved(const xobserved&) = default] under the implicit copy
    constructor of the owner type and of its properties: every member is
    copied, the two maps included. *)
Definition copy_construct (other : Owner) : Owner :=
  {| m_value := m_value other;
     m_observers := m_observers other;
     m_validators := m_validators other |}.

(** [xobserved(xobserved&&) = default]: the new object takes over the
    members of [other].  What is left in [other] is not modelled. *)
Definition move_construct (other : Owner) : Owner :=
  {| m_value := m_value other;
     m_observers := m_observers other;
     m_validators := m_validators other |}.

(** [D copy(other);] with the new object at address [this]. *)
Definition construct_from (copy : Owner → Owner) (other this : owner_id)
    : M unit := λ m,
  match owners m !! other with
  | Some ow => Returned tt
      {| owners := <[this := copy ow]> (owners m); calls := calls m |}
  | None => Undefined
  end.

(** ** Vocabulary of the statements *)

(** A body that passes things to the outside world and returns. *)
Inductive only_outputs : prog → Prop :=
| only_outputs_Ret : only_outputs Ret
| only_outputs_Output x k : only_outputs k → only_outputs (Output x k).

(** An observer that neither assigns nor throws: whatever it does with
    the owner it is shown goes to the outside world. *)
Definition passive (cb : observer) : Prop := ∀ view, only_outputs (cb view).

(** A body that passes things to the outside world and throws [e]. *)
Inductive throws (e : exn) : prog → Prop :=
| throws_Throw : throws e (Throw e)
| throws_Output x k : throws e k → throws e (Output x k).

(** What a body passes to the outside world before anything else. *)
Fixpoint outputs_of (p : prog) : list output :=
  match p with
  | Output x k => x :: outputs_of k
  | _ => []
  end.

Definition is_validator_call (ev : event) : Prop :=
  match ev with validator_called _ _ _ _ _ => True | _ => False end.

(** A validator that always returns: the [std::function] made from a
    total function. *)
Definition total (f : props → value → value) : validator :=
  λ view c, inr (f view c).

(** [vn(...v2(v1(owner, v))...)] *)
Definition chain (view : props) (vs : list (props → value → value))
    (v : value) : value :=
  foldl (λ c f, f view c) v vs.

(** The owner after [validate<I>(v1)], ..., [validate<I>(vn)]. *)
Definition validated_by (I : offset) (V : type_id)
    (vs : list (props → value → value)) (ow : Owner) : Owner :=
  foldl (λ ow f, validate I V (total f) ow) ow vs.

(** The owner after [observe<I>(o1)], ..., [observe<I>(om)]. *)
Definition observed_by (I : offset) (cbs : list observer) (ow : Owner)
    : Owner :=
  foldl (λ ow cb, observe I cb ow) ow cbs.

(** The calls a chain of total validators receives from proposal [v] on:
    each gets the owner and the candidate its predecessor returned. *)
Fixpoint validation_calls (o : owner_id) (I : offset) (view : props)
    (vs : list (props → value → value)) (v : value) : list event :=
  match vs with
  | [] => []
  | f :: rest =>
      validator_called o I (total f) view v
        :: validation_calls o I view rest (f view v)
  end.

(** The calls of the observers [cbs], in order, each on [view] and
    followed by what the observer says. *)
Definition observer_calls (o : owner_id) (I : offset) (view : props)
    (cbs : list observer) : list event :=
  cbs ≫= λ cb, observer_called o I cb view :: (said <$> outputs_of (cb view)).

(** The machine after [t] more calls. *)
Definition after (m : machine) (t : list event) : machine :=
  {| owners := owners m; calls := calls m ++ t |}.

(** The machine with [ow] as the object at address [o]. *)
Definition with_owner (o : owner_id) (ow : Owner) (m : machine) : machine :=
  {| owners := <[o := ow]> (owners m); calls := calls m |}.

(** [o.I] read in machine [m], and the callbacks registered for it. *)
Definition property (m : machine) (o : owner_id) (I : offset)
    : option value :=
  (λ ow, m_value ow I) <$> owners m !! o.

Definition observers_at (m : machine) (o : owner_id) (I : offset)
    : list observer :=
  from_option (λ ow, callbacks_of (m_observers ow) I) [] (owners m !! o).

Definition validators_at (m : machine) (o : owner_id) (I : offset)
    : list any :=
  from_option (λ ow, callbacks_of (m_validators ow) I) [] (owners m !! o).

(** The same objects with the same callbacks registered. *)
Definition same_registries (m m' : machine) : Prop :=
  ∀ o I,
    (is_Some (owners m' !! o) ↔ is_Some (owners m !! o))
    ∧ observers_at m' o I = observers_at m o I
    ∧ validators_at m' o I = validators_at m o I.

(** The property at [SA] of [S] has no validator, and the first of its
    observers is the callback that links it to the property at [TA] of
    [T]. *)
Definition linked_to (m : machine) (S : owner_id) (SA : offset)
    (T : owner_id) (TA : offset) : Prop :=
  is_Some (owners m !! S)
  ∧ validators_at m S SA = []
  ∧ ∃ V rest, observers_at m S SA = link_callback V S SA T TA :: rest.

(** [call'] answers as [call] wherever [call] stays within its call
    depth. *)
Definition extends (call call' : owner_id → offset → type_id → value →
    M value) : Prop :=
  ∀ o I V v m, call o I V v m ≠ OutOfFuel → call' o I V v m = call o I V v m.

(** What is left of an assignment to the property at [I] of the owner
    [ow] at [o] once validation has returned [v']: the store, then one
    call of each of [cbs], in order, on the owner with [v'] stored. *)
Definition store_and_notify (o : owner_id) (ow : Owner) (I : offset)
    (cbs : list observer) : value → M value := λ v' mv,
  Returned v'
    (after (with_owner o (set_value I v' ow) mv)
       (observer_calls o I (<[I := v']> (m_value ow)) cbs)).

(** [m'] has the objects of [m] with the same callbacks registered, and
    its record of calls continues that of [m]. *)
Definition grows (m m' : machine) : Prop :=
  same_registries m m' ∧ calls m `prefix_of` calls m'.

(** Wherever [c] returns or throws, the machine has only grown. *)
Definition keeps_registries {A} (c : M A) : Prop :=
  ∀ m,
    match c m with
    | Returned _ m' | Thrown _ m' => grows m m'
    | Undefined | OutOfFuel => True
    end.

(** [xproperty::operator const_reference() const] on the property at
    offset [I] of the owner at [o]: the stored value. *)
Definition read (o : owner_id) (I : offset) : M value :=
  let* this := deref o in
  ret (m_value this I).

(** The validator that answers every proposal for the property at [I]
    with the value the property holds. *)
Definition current (I : offset) : props → value → value :=
  λ view _, view I.

(** ** Owner types with static dispatch *)

(** The explicit specializations an owner type made with
    [MAKE_OBSERVED] declares: [XVALIDATE_STATIC(T, O, D, A)] specializes
    [invoke_validators<xoffsetof(O, D), T>] and [XOBSERVE_STATIC(T, O, D)]
    specializes [invoke_observers<xoffsetof(O, D)>]; [None] stands for
    the primary template of [MAKE_OBSERVED]. *)
Record specializations := make_specializations {
  validators_static : offset → type_id → option validator;
  observers_static : offset → option observer
}.

(** [O::invoke_validators<I, V>(V&& r)]: the specialization for [I] and
    [V] when there is one, else [return r]. *)
Definition static_invoke_validators (sp : specializations) (o : owner_id)
    (I : offset) (V : type_id) (r : value) : M value :=
  match validators_static sp I V with
  | Some f =>
      let* this := deref o in
      let* _ := record (validator_called o I f (m_value this) r) in
      match f (m_value this) r with
      | inl e => throw e
      | inr v' => ret v'
      end
  | None => ret r
  end.

(** [O::invoke_observers<I>()]: the specialization for [I] when there is
    one, else the empty body. *)
Definition static_invoke_observers
    (call : owner_id → offset → type_id → value → M value)
    (sp : specializations) (o : owner_id) (I : offset) : M unit :=
  match observers_static sp I with
  | Some body =>
      let* this := deref o in
      let* _ := record (observer_called o I body (m_value this)) in
      exec call (body (m_value this))
  | None => ret tt
  end.

(** [xproperty::operator=] on a property of an owner of such a type. *)
Definition static_assign
    (call : owner_id → offset → type_id → value → M value)
    (sp : specializations) (o : owner_id) (I : offset) (V : type_id)
    (value_ : value) : M value :=
  let* v := static_invoke_validators sp o I V value_ in
  let* _ := update o (set_value I v) in
  let* _ := static_invoke_observers call sp o I in
  let* this := deref o in
  ret (m_value this I).

(** ** Construction *)

(** An owner as its constructors leave it: each property constructed
    from its initial value ([xproperty(const_reference)]), the two maps
    of [xobserved() = default] empty. *)
Definition construct (init : props) : Owner :=
  {| m_value := init; m_observers := ∅; m_validators := ∅ |}.

(** [D this_(...);] with the new object at address [this]. *)
Definition construct_at (this : owner_id) (init : props) : M unit := λ m,
  Returned tt
    {| owners := <[this := construct init]> (owners m); calls := calls m |}.

(** ** Observers of a linked source *)





End xproperty.

Global Arguments props : clear implicits.
Global Arguments exn : clear implicits.
Global Arguments prog : clear implicits.
Global Arguments observer : clear implicits.
Global Arguments validator : clear implicits.
Global Arguments any : clear implicits.
Global Arguments Owner : clear implicits.
Global Arguments event : clear implicits.
Global Arguments machine : clear implicits.
Global Arguments outcome : clear implicits.
Global Arguments M : clear implicits.

(** * A sample instance

    An owner type with two [double] properties, as the statements below
    are tried on: values are integers, the template parameter [V] is one
    of three types, callbacks throw numbered exceptions, and observers
    append a line, their name and the value of [bar] they see, to a log. *)

Module Sample.

Inductive cpp_type :=
| t_double      (* [double]: an rvalue of the value type *)
| t_double_ref  (* [double&]: an lvalue of the value type *)
| t_property_ref. (* the property class itself, as in [T.TA = S.SA] *)

#[global] Instance cpp_type_eq_dec : EqDecision cpp_type.
Proof. solve_decision. Defined.

Abbreviation line := (string * Z)%type.
Abbreviation Foo := (Owner Z cpp_type nat line).
Abbreviation world := (machine Z cpp_type nat line).

(** [xoffsetof(Foo, bar)] and [xoffsetof(Foo, baz)] *)
Definition bar : offset := 0%N.
Definition baz : offset := 8%N.

Definition blank : Foo :=
  {| m_value := λ _, 0%Z; m_observers := ∅; m_validators := ∅ |}.

(** Two owners, [foo] at address 0 and [other] at address 1. *)
Definition foo : owner_id := 0.
Definition other : owner_id := 1.

Definition two_owners : world :=
  {| owners := <[foo := blank]> (<[other := blank]> ∅); calls := [] |}.

(** Validators: clamp to [0, 100]; double the candidate; refuse
    negative candidates. *)
Definition clamp : props Z → Z → Z := λ _ c, Z.max 0 (Z.min 100 c).
Definition twice : props Z → Z → Z := λ _ c, (2 * c)%Z.
Definition refuse_negative : validator Z nat := λ _ c,
  if (c <? 0)%Z then inl (user_exception 1) else inr c.

(** Observers: two that log what they see, one that logs and throws. *)
Definition watcher : observer Z cpp_type nat line :=
  λ view, Output ("watcher"%string, view bar) Ret.
Definition logger : observer Z cpp_type nat line :=
  λ view, Output ("logger"%string, view bar) Ret.
Definition thrower : observer Z cpp_type nat line :=
  λ view, Output ("thrower"%string, view bar) (Throw (user_exception 7)).

Definition with_foo (ow : Foo) : world :=
  with_owner foo ow two_owners.

(** [foo] with [watcher] observing [bar], then [clamp] and [twice]
    validating it. *)
Definition watched : Foo := observed_by bar [watcher] blank.
Definition clamped_twice : Foo :=
  validated_by bar t_double [clamp; twice] watched.

(** [foo] with [clamp] validating [bar], then [watcher] and [logger]
    observing it. *)
Definition clamped : Foo := validated_by bar t_double [clamp] blank.
Definition clamped_watched : Foo := observed_by bar [watcher; logger] clamped.

(** [foo] with [watcher], [thrower] and [logger] observing [bar]. *)
Definition booby_trapped : Foo :=
  observed_by bar [watcher; thrower; logger] blank.

(** [foo] with [twice] and [refuse_negative] validating [bar] and
    [watcher] observing it. *)
Definition guarded : Foo :=
  validate bar t_double refuse_negative
    (validate bar t_double (total twice) watched).

(** [foo] with [watcher] observing [bar], and 3 in [bar]. *)
Definition three : Foo := set_value bar 3%Z watched.

(** [foo] with callbacks on both properties. *)
Definition busy : Foo :=
  observed_by bar [watcher]
    (observed_by baz [logger]
       (validated_by bar t_double [clamp]
          (validated_by baz t_double [twice] blank))).

(** [foo] with [twice] and then [current bar] validating [bar], [watcher]
    observing it and 3 in it. *)
Definition vetoed : Foo :=
  validated_by bar t_double ([twice] ++ [current bar]) three.

(** [guarded] with [clamp] registered after [refuse_negative]. *)
Definition guarded_more : Foo := validate bar t_double (total clamp) guarded.

(** [foo] with 3 in [bar], [other] with [clamp] validating its [bar]. *)
Definition validated_target : world :=
  {| owners := <[foo := three]> (<[other := clamped]> ∅); calls := [] |}.

(** [foo.bar], observed by [watcher], linked to [other.baz], which
    [logger], [thrower] and [watcher] observe. *)
Definition trapped_link : world :=
  {| owners :=
       <[foo := observed_by bar
                  [watcher; link_callback t_property_ref foo bar other baz]
                  blank]>
         (<[other := observed_by baz [logger; thrower; watcher] blank]> ∅);
     calls := [] |}.

(** An owner type with static dispatch: [clamp] validates [bar] when the
    assignment is instantiated with [double], [watcher] observes [bar]. *)
Definition static_foo : specializations (value := Z) (type_id := cpp_type)
    (user_exn := nat) (output := line) :=
  {| validators_static := λ I V,
       if (I =? bar)%N
       then match V with t_double => Some (total clamp) | _ => None end
       else None;
     observers_static := λ I,
       if (I =? bar)%N then Some watcher else None |}.

(** An observer of [foo.bar] that resets it to 0. *)
Definition resetter : observer Z cpp_type nat line :=
  λ _, Assign foo bar t_double 0%Z Ret.

Definition resetting : Foo := observed_by bar [watcher; resetter] blank.



End Sample.

(** * Properties *)

Section theory.

Context {value type_id user_exn output : Type} `{EqDecision type_id}.

Local Abbreviation props := (props value).
Local Abbreviation exn := (exn user_exn).
Local Abbreviation prog := (prog value type_id user_exn output).
Local Abbreviation observer := (observer value type_id user_exn output).
Local Abbreviation validator := (validator value user_exn).
Local Abbreviation any := (any value type_id user_exn).
Local Abbreviation Owner := (Owner value type_id user_exn output).
Local Abbreviation event := (event value type_id user_exn output).
Local Abbreviation machine := (machine value type_id user_exn output).
Local Abbreviation M := (M value type_id user_exn output).

Implicit Types (m : machine) (ow : Owner) (o : owner_id) (I K : offset)
  (V : type_id) (v : value) (e : exn) (view : props).

(** ** The registries *)

Lemma callbacks_of_register {C} (reg : gmap offset (list C)) I (cb : C) :
  callbacks_of (register I cb reg) I = callbacks_of reg I ++ [cb].
Proof.
  unfold callbacks_of, register.
  destruct (reg !! I) as [l|] eqn:E; by rewrite lookup_insert_eq.
Qed.

Lemma lookup_register_ne {C} (reg : gmap offset (list C)) I J (cb : C) :
  I ≠ J → register I cb reg !! J = reg !! J.
Proof.
  intros Hne. unfold register.
  destruct (reg !! I); by rewrite lookup_insert_ne.
Qed.

Lemma callbacks_of_delete {C} (reg : gmap offset (list C)) I :
  callbacks_of (delete I reg) I = [].
Proof. unfold callbacks_of. by rewrite lookup_delete_eq. Qed.

Lemma callbacks_of_foldl_register {C} (cbs : list C) I
    (reg : gmap offset (list C)) :
  callbacks_of (foldl (λ r cb, register I cb r) reg cbs) I
  = callbacks_of reg I ++ cbs.
Proof.
  revert reg. induction cbs as [|cb cbs IH]; intros reg; simpl.
  - by rewrite app_nil_r.
  - rewrite IH, callbacks_of_register. by rewrite <- app_assoc.
Qed.

(** ** Machines *)

Lemma after_nil m : after m [] = m.
Proof. destruct m. unfold after. simpl. by rewrite app_nil_r. Qed.

Lemma after_app m t1 t2 : after (after m t1) t2 = after m (t1 ++ t2).
Proof. unfold after. simpl. by rewrite app_assoc. Qed.

Lemma with_owner_with_owner o ow ow' m :
  with_owner o ow' (with_owner o ow m) = with_owner o ow' m.
Proof. unfold with_owner. simpl. by rewrite insert_insert_eq. Qed.

Lemma with_owner_after o ow m t :
  with_owner o ow (after m t) = after (with_owner o ow m) t.
Proof. reflexivity. Qed.

Lemma props_lookup_insert view I v : (<[I := v]> view) I = v.
Proof. apply fn_lookup_insert. Qed.

Lemma props_lookup_insert_ne view I J v :
  I ≠ J → (<[I := v]> view) J = view J.
Proof. apply fn_lookup_insert_ne. Qed.

Lemma bind_eq {A B} (c c' : M A) (f : A → M B) m :
  c m = c' m → bind c f m = bind c' f m.
Proof. unfold bind. by intros ->. Qed.

(** ** Validation *)

(** Validation only calls validators: it leaves every owner as it is,
    and it needs no fuel. *)
Lemma validators_loop_frame o I V view (callbacks : list any) v m :
  match validators_loop o I V view callbacks v m with
  | Returned _ m' | Thrown _ m' =>
      ∃ t, m' = after m t ∧ Forall is_validator_call t
  | Undefined | OutOfFuel => False
  end.
Proof.
  revert v m. induction callbacks as [|it rest IH]; intros v m; simpl.
  - exists []. by rewrite after_nil.
  - destruct (any_cast V it) as [e|f].
    + exists []. by rewrite after_nil.
    + unfold bind. simpl. destruct (f view v) as [e|v'].
      * simpl. eexists [_]. split; [reflexivity|]. by repeat constructor.
      * specialize (IH v' (after m [validator_called o I f view v])).
        fold (after m [validator_called o I f view v]).
        destruct (validators_loop _ _ _ _ rest v' _);
          try done; destruct IH as (t & -> & Ht);
          exists (validator_called o I f view v :: t);
          rewrite after_app; split; try done; by constructor.
Qed.

Lemma invoke_validators_frame o I V v m :
  match invoke_validators o I V v m with
  | Returned _ m' | Thrown _ m' =>
      ∃ t, m' = after m t ∧ Forall is_validator_call t
  | Undefined => owners m !! o = None
  | OutOfFuel => False
  end.
Proof.
  unfold invoke_validators, bind, deref.
  destruct (owners m !! o) as [this|]; [|done].
  destruct (m_validators this !! I) as [callbacks|].
  - pose proof (validators_loop_frame o I V (m_value this) callbacks v m).
    by destruct (validators_loop _ _ _ _ _ _ _).
  - exists []. by rewrite after_nil.
Qed.

Lemma invoke_validators_returned o I V v m v' m' :
  invoke_validators o I V v m = Returned v' m' →
  ∃ t, m' = after m t ∧ Forall is_validator_call t.
Proof.
  intros E. pose proof (invoke_validators_frame o I V v m) as F.
  by rewrite E in F.
Qed.

Lemma invoke_validators_thrown o I V v m e m' :
  invoke_validators o I V v m = Thrown e m' →
  ∃ t, m' = after m t ∧ Forall is_validator_call t.
Proof.
  intros E. pose proof (invoke_validators_frame o I V v m) as F.
  by rewrite E in F.
Qed.

Lemma invoke_validators_callbacks o ow I V v m :
  owners m !! o = Some ow →
  invoke_validators o I V v m
  = validators_loop o I V (m_value ow)
      (callbacks_of (m_validators ow) I) v m.
Proof.
  intros Ho. unfold invoke_validators, bind, deref, callbacks_of.
  rewrite Ho. by destruct (m_validators ow !! I).
Qed.

Lemma validators_loop_app o I V view (pre post : list any) v m :
  validators_loop o I V view (pre ++ post) v m
  = bind (validators_loop o I V view pre v)
      (λ c, validators_loop o I V view post c) m.
Proof.
  revert v m. induction pre as [|it pre IH]; intros v m; simpl; [done|].
  destruct (any_cast V it) as [e|f]; [done|].
  unfold bind at 1 3. simpl. destruct (f view v) as [e|v']; [done|].
  by rewrite IH.
Qed.

(** ** Notification *)

Section with_assignment.

Variable call : owner_id → offset → type_id → value → M value.

Lemma observers_loop_cons o ow I it (rest : list observer) m :
  owners m !! o = Some ow →
  observers_loop call o I (it :: rest) m
  = bind (exec call (it (m_value ow)))
      (λ _, observers_loop call o I rest)
      (after m [observer_called o I it (m_value ow)]).
Proof. intros Ho. simpl. unfold bind, deref. by rewrite Ho. Qed.

Lemma exec_only_outputs p m :
  only_outputs p →
  exec call p m = Returned tt (after m (said <$> outputs_of p)).
Proof.
  intros Hp. revert m. induction Hp as [|x k _ IH]; intros m; simpl.
  - unfold ret. by rewrite after_nil.
  - unfold bind, record. simpl. fold (after m [said x]).
    by rewrite IH, after_app.
Qed.

Lemma exec_throws e p m :
  throws e p →
  exec call p m = Thrown e (after m (said <$> outputs_of p)).
Proof.
  intros Hp. revert m. induction Hp as [|x k _ IH]; intros m; simpl.
  - unfold throw. by rewrite after_nil.
  - unfold bind, record. simpl. fold (after m [said x]).
    by rewrite IH, after_app.
Qed.

Lemma observers_loop_app o I (pre post : list observer) m :
  observers_loop call o I (pre ++ post) m
  = bind (observers_loop call o I pre)
      (λ _, observers_loop call o I post) m.
Proof.
  revert m. induction pre as [|it pre IH]; intros m; simpl; [done|].
  unfold bind in *. destruct (deref o m) as [this m1| | |]; try done.
  simpl.
  by destruct (exec call (it (m_value this)) _) as [[] m2| | |].
Qed.

(** Passive observers are called one after the other, each on the
    owner as it stands, and leave the machine as it is. *)
Lemma observers_loop_passive o ow I (callbacks : list observer) m :
  owners m !! o = Some ow → Forall passive callbacks →
  observers_loop call o I callbacks m
  = Returned tt
      (after m (observer_calls o I (m_value ow) callbacks)).
Proof.
  intros Ho Hp. revert m Ho.
  induction Hp as [|it rest Hit _ IH]; intros m Ho.
  - simpl. unfold ret. by rewrite after_nil.
  - erewrite observers_loop_cons by done. unfold bind.
    rewrite exec_only_outputs by apply Hit.
    rewrite IH by done. rewrite !after_app.
    unfold observer_calls. by rewrite bind_cons.
Qed.

Lemma invoke_observers_callbacks o ow I m :
  owners m !! o = Some ow →
  invoke_observers call o I m
  = observers_loop call o I (callbacks_of (m_observers ow) I) m.
Proof.
  intros Ho. unfold invoke_observers, bind, deref, callbacks_of.
  rewrite Ho. by destruct (m_observers ow !! I).
Qed.

(** [operator=] once validation has returned [v']: the value is
    stored, then the observers of the offset run on the new state. *)
Lemma assign_body_validated o ow I V v v' m mv :
  owners m !! o = Some ow →
  invoke_validators o I V v m = Returned v' mv →
  assign_body call o I V v m
  = bind (observers_loop call o I (callbacks_of (m_observers ow) I))
      (λ _, bind (deref o) (λ this, ret (m_value this I)))
      (with_owner o (set_value I v' ow) mv).
Proof.
  intros Ho Hv. unfold assign_body. unfold bind at 1. rewrite Hv.
  apply invoke_validators_returned in Hv as (t & -> & _).
  unfold bind at 1. unfold update. simpl. rewrite Ho.
  apply bind_eq.
  apply (invoke_observers_callbacks o (set_value I v' ow)).
  simpl. by rewrite lookup_insert_eq.
Qed.

Lemma assign_body_thrown o I V v e m mv :
  invoke_validators o I V v m = Thrown e mv →
  assign_body call o I V v m = Thrown e mv.
Proof. intros Hv. unfold assign_body, bind. by rewrite Hv. Qed.

Lemma assign_body_passive o ow I V v v' m mv :
  owners m !! o = Some ow →
  invoke_validators o I V v m = Returned v' mv →
  Forall passive (callbacks_of (m_observers ow) I) →
  assign_body call o I V v m
  = Returned v'
      (after (with_owner o (set_value I v' ow) mv)
         (observer_calls o I (<[I := v']> (m_value ow))
            (callbacks_of (m_observers ow) I))).
Proof.
  intros Ho Hv Hp. erewrite assign_body_validated by done.
  unfold bind at 1.
  erewrite (observers_loop_passive o (set_value I v' ow)); [|..|done].
  - unfold bind, deref. simpl. rewrite lookup_insert_eq. simpl.
    unfold ret. by rewrite props_lookup_insert.
  - simpl. by rewrite lookup_insert_eq.
Qed.

Lemma assign_body_passive_bind o ow I V v m :
  owners m !! o = Some ow →
  Forall passive (callbacks_of (m_observers ow) I) →
  assign_body call o I V v m
  = bind
      (validators_loop o I V (m_value ow)
         (callbacks_of (m_validators ow) I) v)
      (store_and_notify o ow I (callbacks_of (m_observers ow) I)) m.
Proof.
  intros Ho Hp.
  transitivity (bind (invoke_validators o I V v)
    (store_and_notify o ow I (callbacks_of (m_observers ow) I)) m);
    [|apply bind_eq; by apply invoke_validators_callbacks].
  pose proof (invoke_validators_frame o I V v m) as F.
  destruct (invoke_validators o I V v m) as [v' mv|e mv| |] eqn:E.
  - erewrite assign_body_passive by done. unfold bind. by rewrite E.
  - erewrite assign_body_thrown by done. unfold bind. by rewrite E.
  - congruence.
  - done.
Qed.

End with_assignment.

(** ** Call depth *)

(** Each nested call of [operator=] takes one unit of fuel.  An answer
    other than [OutOfFuel] is the answer at every greater depth. *)

Lemma bind_extends {A B} (c c' : M A) (f f' : A → M B) m :
  (c m ≠ OutOfFuel → c' m = c m) →
  (∀ a m', f a m' ≠ OutOfFuel → f' a m' = f a m') →
  bind c f m ≠ OutOfFuel → bind c' f' m = bind c f m.
Proof.
  unfold bind. intros Hc Hf H.
  destruct (c m) as [a m'| | |] eqn:E; try done;
    rewrite Hc by done; [by apply Hf|done..].
Qed.

Lemma exec_extends call call' p m :
  extends call call' →
  exec call p m ≠ OutOfFuel → exec call' p m = exec call p m.
Proof.
  intros Hc. revert m.
  induction p as [|o k IH|o K V v k IH|x k IH|e]; intros m; simpl; try done.
  - destruct (owners m !! o); [apply IH|done].
  - intros H. destruct (call o K V v m) as [a m'| | |] eqn:E; try done;
      rewrite Hc by congruence; rewrite E; [by apply IH|done..].
  - apply bind_extends; [done|]. intros _ m'. apply IH.
Qed.

Lemma observers_loop_extends call call' o I (callbacks : list observer) m :
  extends call call' →
  observers_loop call o I callbacks m ≠ OutOfFuel →
  observers_loop call' o I callbacks m = observers_loop call o I callbacks m.
Proof.
  intros Hc. revert m. induction callbacks as [|it rest IH]; intros m;
    simpl; [done|].
  apply bind_extends; [done|]. intros this m1.
  apply bind_extends; [done|]. intros _ m2.
  apply bind_extends; [by apply exec_extends|]. intros _ m3. apply IH.
Qed.

Lemma assign_body_extends
    (call call' : owner_id → offset → type_id → value → M value) :
  extends call call' → extends (assign_body call) (assign_body call').
Proof.
  intros Hc o I V v m. unfold assign_body.
  apply bind_extends; [done|]. intros v' m1.
  apply bind_extends; [done|]. intros _ m2.
  apply bind_extends; [|done].
  unfold invoke_observers. apply bind_extends; [done|]. intros this m3.
  destruct (m_observers this !! I); [|done].
  by apply observers_loop_extends.
Qed.

(** More call depth never changes what an assignment does. *)
Lemma assign_fuel_monotone n n' o I V v m :
  n ≤ n' → assign n o I V v m ≠ OutOfFuel →
  assign n' o I V v m = assign n o I V v m.
Proof.
  intros Hle. revert o I V v m.
  assert (∀ k o I V v m, assign k o I V v m ≠ OutOfFuel →
    assign (S k) o I V v m = assign k o I V v m) as Hstep.
  { induction k as [|k IHk]; [done|].
    by apply (assign_body_extends (assign k) (assign (S k))). }
  induction Hle as [|n' _ IH]; intros o I V v m H; [done|].
  rewrite Hstep by (by rewrite IH). by apply IH.
Qed.

(** ** Registration, seen through the loops *)

Lemma invoke_validators_nil o ow I V v m :
  owners m !! o = Some ow → callbacks_of (m_validators ow) I = [] →
  invoke_validators o I V v m = Returned v m.
Proof.
  intros Ho Hv. erewrite invoke_validators_callbacks by done.
  by rewrite Hv.
Qed.

Lemma validators_loop_total o I V view
    (vs : list (props → value → value)) v m :
  validators_loop o I V view (make_any V ∘ total <$> vs) v m
  = Returned (chain view vs v) (after m (validation_calls o I view vs v)).
Proof.
  unfold chain. revert v m. induction vs as [|f vs IH]; intros v m; simpl.
  - unfold ret. by rewrite after_nil.
  - unfold any_cast. simpl. rewrite decide_True by done.
    unfold bind, record. simpl.
    fold (after m [validator_called o I (total f) view v]).
    by rewrite IH, after_app.
Qed.

Lemma validated_by_registry ow I V (vs : list (props → value → value)) :
  validated_by I V vs ow
  = with_validators
      (λ reg, foldl (λ r cb, register I cb r) reg (make_any V ∘ total <$> vs))
      ow.
Proof.
  unfold validated_by.
  revert ow. induction vs as [|f vs IH]; intros ow; simpl.
  - by destruct ow.
  - by rewrite IH.
Qed.

Lemma observed_by_registry ow I (cbs : list observer) :
  observed_by I cbs ow
  = with_observers (λ reg, foldl (λ r cb, register I cb r) reg cbs) ow.
Proof.
  unfold observed_by.
  revert ow. induction cbs as [|cb cbs IH]; intros ow; simpl.
  - by destruct ow.
  - by rewrite IH.
Qed.

Lemma validated_by_callbacks ow I V (vs : list (props → value → value)) :
  callbacks_of (m_validators (validated_by I V vs ow)) I
  = callbacks_of (m_validators ow) I ++ (make_any V ∘ total <$> vs).
Proof.
  rewrite validated_by_registry. simpl. apply callbacks_of_foldl_register.
Qed.

Lemma observed_by_callbacks ow I (cbs : list observer) :
  callbacks_of (m_observers (observed_by I cbs ow)) I
  = callbacks_of (m_observers ow) I ++ cbs.
Proof.
  rewrite observed_by_registry. simpl. apply callbacks_of_foldl_register.
Qed.

(** ** Assignment *)

(** C3: on an owner with no validator and no observer registered for the
    offset of a property, validation returns the proposed value as it
    is, and the assignment returns with the property equal to the
    proposed value and without a single callback called. *)
Theorem assign_without_callbacks fuel o ow I V v m :
  owners m !! o = Some ow →
  callbacks_of (m_validators ow) I = [] →
  callbacks_of (m_observers ow) I = [] →
  invoke_validators o I V v m = Returned v m
  ∧ assign (S fuel) o I V v m
    = Returned v (with_owner o (set_value I v ow) m)
  ∧ m_value (set_value I v ow) I = v
  ∧ calls (with_owner o (set_value I v ow) m) = calls m.
Proof.
  intros Ho Hv Hobs.
  assert (invoke_validators o I V v m = Returned v m) as Hval
    by by eapply invoke_validators_nil.
  split_and!; [done| |apply props_lookup_insert|done].
  simpl. erewrite assign_body_passive; [|done..|by rewrite Hobs].
  rewrite Hobs. by rewrite after_nil.
Qed.

(** Validators v1..vn registered in that order for an offset, and an
    assignment instantiated with the type they are registered under: it
    hands each of them the owner and the candidate of its predecessor,
    stores vn(...v2(v1(owner, v))...) and returns it; once the
    validators of the offset are removed, the same assignment stores the
    proposed value itself. *)
Theorem assign_folds_validators fuel o ow I V
    (vs : list (props → value → value)) v m :
  callbacks_of (m_validators ow) I = [] →
  Forall passive (callbacks_of (m_observers ow) I) →
  owners m !! o = Some (validated_by I V vs ow) →
  assign (S fuel) o I V v m
  = Returned (chain (m_value ow) vs v)
      (after
         (with_owner o
            (set_value I (chain (m_value ow) vs v) (validated_by I V vs ow))
            m)
         (validation_calls o I (m_value ow) vs v
          ++ observer_calls o I (<[I := chain (m_value ow) vs v]> (m_value ow))
               (callbacks_of (m_observers ow) I)))
  ∧ m_value
      (set_value I (chain (m_value ow) vs v) (validated_by I V vs ow)) I
    = chain (m_value ow) vs v
  ∧ bind (XUNVALIDATE o I) (λ _, assign (S fuel) o I V v) m
    = Returned v
        (after
           (with_owner o
              (set_value I v (unvalidate I (validated_by I V vs ow))) m)
           (observer_calls o I (<[I := v]> (m_value ow))
              (callbacks_of (m_observers ow) I))).
Proof.
  intros Hv Hp Ho.
  assert (m_value (validated_by I V vs ow) = m_value ow) as Hval
    by by rewrite validated_by_registry.
  assert (m_observers (validated_by I V vs ow) = m_observers ow) as Hobs
    by by rewrite validated_by_registry.
  split_and!.
  - assert (invoke_validators o I V v m
            = Returned (chain (m_value ow) vs v)
                (after m (validation_calls o I (m_value ow) vs v)))
      as Hvalid.
    { erewrite invoke_validators_callbacks by done.
      rewrite validated_by_callbacks, Hv, Hval. simpl.
      apply validators_loop_total. }
    simpl. rewrite (assign_body_passive _ _ _ _ _ _ _ _ _ Ho Hvalid)
      by by rewrite Hobs.
    by rewrite Hval, Hobs, with_owner_after, after_app.
  - apply props_lookup_insert.
  - unfold bind at 1. unfold XUNVALIDATE, update. rewrite Ho.
    fold (with_owner o (unvalidate I (validated_by I V vs ow)) m).
    set (m1 := with_owner o (unvalidate I (validated_by I V vs ow)) m).
    assert (owners m1 !! o = Some (unvalidate I (validated_by I V vs ow)))
      as Ho1 by (simpl; by rewrite lookup_insert_eq).
    assert (invoke_validators o I V v m1 = Returned v m1) as Hvalid.
    { eapply invoke_validators_nil; [done|]. apply callbacks_of_delete. }
    simpl. rewrite (assign_body_passive _ _ _ _ _ _ _ _ _ Ho1 Hvalid)
      by (simpl; by rewrite Hobs).
    subst m1. simpl. by rewrite Hval, Hobs, with_owner_with_owner.
Qed.

(** C1, as the code has it: the validators of an offset run only for an
    assignment instantiated with the very type they are registered
    under.  Instantiated with another type, as for a proposal that is an
    lvalue or a value of a convertible type, an assignment to a property
    with validators leaves by [bad_any_cast] at the first of them:
    nothing is validated, stored or notified. *)
Theorem assign_of_other_type_throws fuel o ow I V V'
    (f : props → value → value) (vs : list (props → value → value)) v m :
  callbacks_of (m_validators ow) I = [] →
  V' ≠ V →
  owners m !! o = Some (validated_by I V (f :: vs) ow) →
  assign (S fuel) o I V' v m = Thrown bad_any_cast m.
Proof.
  intros Hv Hne Ho. simpl. apply assign_body_thrown.
  erewrite invoke_validators_callbacks by done.
  rewrite validated_by_callbacks, Hv. simpl.
  unfold any_cast. simpl. by rewrite decide_False.
Qed.

(** C2: with observers o1..om registered in that order for an offset, an
    assignment whose validation returns [v'] calls o1, ..., om, in that
    order and once each, after the validators; each is handed the owner
    with [v'] already stored in the property. *)
Theorem assign_notifies_in_order fuel o ow I V (cbs : list observer)
    v v' m mv :
  callbacks_of (m_observers ow) I = [] →
  Forall passive cbs →
  owners m !! o = Some (observed_by I cbs ow) →
  invoke_validators o I V v m = Returned v' mv →
  assign (S fuel) o I V v m
  = Returned v'
      (after (with_owner o (set_value I v' (observed_by I cbs ow)) mv)
         (observer_calls o I (<[I := v']> (m_value ow)) cbs))
  ∧ (<[I := v']> (m_value ow)) I = v'
  ∧ ∃ t, mv = after m t ∧ Forall is_validator_call t.
Proof.
  intros Hnone Hp Ho Hv.
  assert (m_value (observed_by I cbs ow) = m_value ow) as Hval
    by by rewrite observed_by_registry.
  pose proof (observed_by_callbacks ow I cbs) as Hcbs.
  rewrite Hnone in Hcbs. simpl in Hcbs.
  split_and!.
  - simpl. rewrite (assign_body_passive _ _ _ _ _ _ _ _ _ Ho Hv)
      by by rewrite Hcbs.
    by rewrite Hcbs, Hval.
  - apply props_lookup_insert.
  - by eapply invoke_validators_returned.
Qed.

(** ** Failures *)

(** C10: when validation leaves by an exception, whichever validator of
    the chain threw it, the assignment leaves by the same exception with
    every owner as before the assignment: nothing was stored and no
    observer was called. *)
Theorem assign_keeps_value_when_validator_throws fuel o I V v e m mv :
  invoke_validators o I V v m = Thrown e mv →
  assign (S fuel) o I V v m = Thrown e mv
  ∧ owners mv = owners m
  ∧ ∃ t, calls mv = calls m ++ t ∧ Forall is_validator_call t.
Proof.
  intros Hv. split; [by apply assign_body_thrown|].
  apply invoke_validators_thrown in Hv as (t & -> & Ht). eauto.
Qed.

(** C6: when the chain of an offset holds a validator stored under
    another type than the one the assignment asks for, and the
    validators before it returned, the cast throws [bad_any_cast]:
    validation and the assignment leave by that exception in the state
    the earlier validators left, in which every owner is as before. *)
Theorem mismatched_validator_fails_fast fuel o ow I V
    (pre post : list any) (a : any) v c m mp :
  owners m !! o = Some ow →
  callbacks_of (m_validators ow) I = pre ++ a :: post →
  any_type a ≠ V →
  validators_loop o I V (m_value ow) pre v m = Returned c mp →
  invoke_validators o I V v m = Thrown bad_any_cast mp
  ∧ assign (S fuel) o I V v m = Thrown bad_any_cast mp
  ∧ owners mp = owners m.
Proof.
  intros Ho Hcbs Hne Hpre.
  assert (invoke_validators o I V v m = Thrown bad_any_cast mp) as Hv.
  { erewrite invoke_validators_callbacks by done.
    rewrite Hcbs, validators_loop_app. unfold bind. rewrite Hpre. simpl.
    unfold any_cast. by rewrite decide_False. }
  split_and!; [done|by apply assign_body_thrown|].
  by apply invoke_validators_thrown in Hv as (t & -> & _).
Qed.

(** C7: when an observer of the offset throws, the observers registered
    before it having returned, the assignment leaves by that very
    exception; the validated value stays stored, what the observers said
    up to the throw stays said, and the observers registered after the
    thrower are not called. *)
Theorem observer_exception_propagates fuel o ow I V
    (pre post : list observer) (cb : observer) v v' e m mv :
  owners m !! o = Some ow →
  invoke_validators o I V v m = Returned v' mv →
  callbacks_of (m_observers ow) I = pre ++ cb :: post →
  Forall passive pre →
  throws e (cb (<[I := v']> (m_value ow))) →
  assign (S fuel) o I V v m
  = Thrown e
      (after (with_owner o (set_value I v' ow) mv)
         (observer_calls o I (<[I := v']> (m_value ow)) (pre ++ [cb])))
  ∧ m_value (set_value I v' ow) I = v'.
Proof.
  intros Ho Hv Hcbs Hp Hcb. split; [|apply props_lookup_insert].
  simpl. erewrite assign_body_validated by done.
  set (m1 := with_owner o (set_value I v' ow) mv).
  assert (owners m1 !! o = Some (set_value I v' ow)) as Ho1.
  { apply invoke_validators_returned in Hv as (t & -> & _).
    simpl. by rewrite lookup_insert_eq. }
  rewrite Hcbs. unfold bind at 1. rewrite observers_loop_app.
  unfold bind at 1.
  rewrite (observers_loop_passive _ _ _ _ _ _ Ho1 Hp).
  erewrite observers_loop_cons by done.
  unfold bind. simpl m_value. rewrite (exec_throws _ e) by done.
  unfold observer_calls.
  by rewrite !after_app, bind_app, bind_singleton.
Qed.

(** ** Unregistration *)

Lemma callbacks_of_delete_ne {C} (reg : gmap offset (list C)) I J :
  J ≠ I → callbacks_of (delete I reg) J = callbacks_of reg J.
Proof. intros Hne. unfold callbacks_of. by rewrite lookup_delete_ne. Qed.

(** C8: [unobserve] of an offset leaves the validators and the observers
    of the other offsets as they are, and a later assignment to the
    property of that offset is validation and the store, with no
    observer called, while an assignment to another property still runs
    its validators and calls its observers.  Likewise [unvalidate]
    leaves the observers and the validators of the other offsets as
    they are, a later assignment to the property of that offset stores
    the proposed value without a validator called, and an assignment to
    another property still runs its validators. *)
Theorem unregistering_is_local fuel o ow I J V v m :
  owners m !! o = Some ow →
  J ≠ I →
  Forall passive (callbacks_of (m_observers ow) I) →
  Forall passive (callbacks_of (m_observers ow) J) →
  (XUNOBSERVE o I m = Returned tt (with_owner o (unobserve I ow) m)
   ∧ assign (S fuel) o I V v (with_owner o (unobserve I ow) m)
     = bind
         (validators_loop o I V (m_value ow)
            (callbacks_of (m_validators ow) I) v)
         (store_and_notify o (unobserve I ow) I [])
         (with_owner o (unobserve I ow) m)
   ∧ m_validators (unobserve I ow) = m_validators ow
   ∧ m_observers (unobserve I ow) !! J = m_observers ow !! J
   ∧ assign (S fuel) o J V v (with_owner o (unobserve I ow) m)
     = bind
         (validators_loop o J V (m_value ow)
            (callbacks_of (m_validators ow) J) v)
         (store_and_notify o (unobserve I ow) J
            (callbacks_of (m_observers ow) J))
         (with_owner o (unobserve I ow) m))
  ∧ (XUNVALIDATE o I m = Returned tt (with_owner o (unvalidate I ow) m)
     ∧ assign (S fuel) o I V v (with_owner o (unvalidate I ow) m)
       = store_and_notify o (unvalidate I ow) I
           (callbacks_of (m_observers ow) I) v
           (with_owner o (unvalidate I ow) m)
     ∧ m_observers (unvalidate I ow) = m_observers ow
     ∧ m_validators (unvalidate I ow) !! J = m_validators ow !! J
     ∧ assign (S fuel) o J V v (with_owner o (unvalidate I ow) m)
       = bind
           (validators_loop o J V (m_value ow)
              (callbacks_of (m_validators ow) J) v)
           (store_and_notify o (unvalidate I ow) J
              (callbacks_of (m_observers ow) J))
           (with_owner o (unvalidate I ow) m)).
Proof.
  intros Ho Hne HpI HpJ.
  assert (∀ ow', owners (with_owner o ow' m) !! o = Some ow') as Hlook
    by (intros; simpl; by rewrite lookup_insert_eq).
  split; split_and!.
  - unfold XUNOBSERVE, update. by rewrite Ho.
  - simpl. erewrite assign_body_passive_bind; [|apply Hlook|].
    + simpl. by rewrite callbacks_of_delete.
    + simpl. rewrite callbacks_of_delete. constructor.
  - done.
  - simpl. by rewrite lookup_delete_ne.
  - simpl. erewrite assign_body_passive_bind; [|apply Hlook|].
    + simpl. by rewrite callbacks_of_delete_ne.
    + simpl. by rewrite callbacks_of_delete_ne.
  - unfold XUNVALIDATE, update. by rewrite Ho.
  - simpl. erewrite assign_body_passive_bind; [|apply Hlook|done].
    simpl. by rewrite callbacks_of_delete.
  - done.
  - simpl. by rewrite lookup_delete_ne.
  - simpl. erewrite assign_body_passive_bind; [|apply Hlook|done].
    simpl. by rewrite callbacks_of_delete_ne.
Qed.

(** ** Copies *)

(** C5, amended: the copy-constructed and the move-constructed owner
    hold the property values of the source and its two registries, the
    registered callbacks included. *)
Theorem copies_keep_values_and_registries ow :
  (m_value (copy_construct ow) = m_value ow
   ∧ m_observers (copy_construct ow) = m_observers ow
   ∧ m_validators (copy_construct ow) = m_validators ow)
  ∧ (m_value (move_construct ow) = m_value ow
     ∧ m_observers (move_construct ow) = m_observers ow
     ∧ m_validators (move_construct ow) = m_validators ow).
Proof. done. Qed.

(** ** Machines seen through their properties and registries *)

Lemma same_registries_refl m : same_registries m m.
Proof. by intros o I. Qed.

Lemma same_registries_trans m1 m2 m3 :
  same_registries m1 m2 → same_registries m2 m3 → same_registries m1 m3.
Proof.
  intros H12 H23 o I.
  destruct (H12 o I) as (D1 & O1 & V1), (H23 o I) as (D2 & O2 & V2).
  split_and!; [by rewrite D2|congruence..].
Qed.

Lemma same_registries_after m t : same_registries m (after m t).
Proof. by intros o I. Qed.

Lemma same_registries_store o ow I v m :
  owners m !! o = Some ow →
  same_registries m (with_owner o (set_value I v ow) m).
Proof.
  intros Ho o' I'. unfold observers_at, validators_at. simpl.
  destruct (decide (o = o')) as [<-|Hne].
  - rewrite lookup_insert_eq, Ho. simpl. split_and!; [|done..].
    split; eauto.
  - by rewrite lookup_insert_ne.
Qed.

Lemma property_after m t o I : property (after m t) o I = property m o I.
Proof. done. Qed.

Lemma property_store o ow I v m o' I' :
  owners m !! o = Some ow →
  property (with_owner o (set_value I v ow) m) o' I'
  = if decide (o' = o ∧ I' = I) then Some v else property m o' I'.
Proof.
  intros Ho. unfold property. simpl.
  destruct (decide (o = o')) as [<-|Hne].
  - rewrite lookup_insert_eq, Ho. simpl.
    destruct (decide (I = I')) as [<-|HneI].
    + rewrite decide_True by done. by rewrite props_lookup_insert.
    + rewrite decide_False by (intros [_ ?]; done).
      by rewrite props_lookup_insert_ne.
  - rewrite lookup_insert_ne by done.
    by rewrite decide_False by (intros [? _]; done).
Qed.

(** [observe] appends to the observers of its offset and touches
    nothing else. *)
Lemma observe_at o ow I cb m :
  owners m !! o = Some ow →
  XOBSERVE o I cb m = Returned tt (with_owner o (observe I cb ow) m)
  ∧ (∀ o', is_Some (owners (with_owner o (observe I cb ow) m) !! o')
           ↔ is_Some (owners m !! o'))
  ∧ (∀ o' I', property (with_owner o (observe I cb ow) m) o' I'
              = property m o' I')
  ∧ (∀ o' I', validators_at (with_owner o (observe I cb ow) m) o' I'
              = validators_at m o' I')
  ∧ (∀ o' I', observers_at (with_owner o (observe I cb ow) m) o' I'
              = observers_at m o' I'
                ++ if decide (o' = o ∧ I' = I) then [cb] else []).
Proof.
  intros Ho. split; [unfold XOBSERVE, update; by rewrite Ho|].
  unfold property, validators_at, observers_at. simpl.
  split_and!; intros o'; try intros I';
    (destruct (decide (o = o')) as [<-|Hne];
     [rewrite lookup_insert_eq, Ho; simpl|rewrite lookup_insert_ne by done]).
  - split; eauto.
  - done.
  - done.
  - done.
  - done.
  - done.
  - destruct (decide (I = I')) as [<-|HneI].
    + rewrite decide_True by done. apply callbacks_of_register.
    + rewrite decide_False by (intros [_ ?]; done). rewrite app_nil_r.
      unfold callbacks_of. by rewrite lookup_register_ne.
  - rewrite decide_False by (intros [? _]; done). by rewrite app_nil_r.
Qed.

(** An assignment to a property without validators whose observers are
    passive returns with the proposed value in that property; no other
    property and no registry has changed. *)
Lemma assign_passive_at call o I V v m :
  is_Some (owners m !! o) →
  validators_at m o I = [] →
  Forall passive (observers_at m o I) →
  ∃ m', assign_body call o I V v m = Returned v m'
    ∧ same_registries m m'
    ∧ ∀ o' I', property m' o' I'
               = if decide (o' = o ∧ I' = I) then Some v
                 else property m o' I'.
Proof.
  intros [ow Ho]. unfold validators_at, observers_at. rewrite Ho. simpl.
  intros Hv Hp. eexists. split_and!.
  - eapply assign_body_passive; [done| |done].
    by eapply invoke_validators_nil.
  - eapply same_registries_trans; [|apply same_registries_after].
    by apply same_registries_store.
  - intros o' I'. rewrite property_after. by apply property_store.
Qed.

(** ** Links *)

Lemma linked_to_same m m' A x B y :
  same_registries m m' → linked_to m A x B y → linked_to m' A x B y.
Proof.
  intros Hs (Ho & Hv & Hobs). destruct (Hs A x) as (D & O & W).
  split_and!; [by apply D|congruence|by rewrite O].
Qed.

(** Two properties linked to each other: an assignment to one of them
    makes its link callback assign to the other, whose link callback
    assigns to the first, and so on; no call depth suffices. *)
Lemma linked_assignment_out_of_fuel n A x B y V v m :
  linked_to m A x B y → linked_to m B y A x →
  assign n A x V v m = OutOfFuel.
Proof.
  revert A x B y V v m.
  induction n as [|n IH]; intros A x B y V v m HA HB; [done|].
  pose proof HA as ([ow Ho] & Hval & V1 & rest & Hobs).
  unfold validators_at, observers_at in Hval, Hobs.
  rewrite Ho in Hval, Hobs. simpl in Hval, Hobs.
  simpl. erewrite assign_body_validated;
    [|done|by eapply invoke_validators_nil].
  rewrite Hobs. unfold bind at 1.
  set (m1 := with_owner A (set_value x v ow) m).
  assert (owners m1 !! A = Some (set_value x v ow)) as Ho1
    by (simpl; by rewrite lookup_insert_eq).
  erewrite observers_loop_cons by done.
  unfold bind at 1. unfold link_callback. simpl.
  rewrite lookup_insert_eq.
  fold (after m1 [observer_called A x
    (λ _, Read A (λ s, Assign B y V1 (s x) Ret))
    (<[x := v]> (m_value ow))]).
  rewrite (IH B y A x); [done|..];
    (eapply linked_to_same; [|done]);
    (eapply same_registries_trans; [|apply same_registries_after]);
    by apply same_registries_store.
Qed.

(** [XLINK] on two properties without callbacks returns and leaves each
    of them linked to the other. *)
Lemma xlink_links fuel VS VT A x B y m :
  is_Some (owners m !! A) → is_Some (owners m !! B) →
  validators_at m A x = [] → observers_at m A x = [] →
  validators_at m B y = [] → observers_at m B y = [] →
  ∃ m', XLINK (S fuel) VS VT A x B y m = Returned tt m'
    ∧ linked_to m' A x B y ∧ linked_to m' B y A x.
Proof.
  intros [a Ha] HB HvA HoA HvB HoB. unfold XLINK.
  destruct (assign_passive_at (assign fuel) B y VS (m_value a x) m)
    as (m1 & E1 & S1 & P1); [done|done|by rewrite HoB|].
  assert (is_Some (owners m1 !! A)) as [a1 Ha1] by (apply S1; eauto).
  destruct (observe_at A a1 x (link_callback VS A x B y) m1 Ha1)
    as (E2 & D2 & _ & W2 & O2).
  set (m2 := with_owner A (observe x (link_callback VS A x B y) a1) m1)
    in *.
  assert (is_Some (owners m2 !! B)) as [b2 Hb2]
    by (apply D2; by apply S1).
  destruct (observe_at B b2 y (link_callback VT B y A x) m2 Hb2)
    as (E3 & D3 & _ & W3 & O3).
  set (m3 := with_owner B (observe y (link_callback VT B y A x) b2) m2)
    in *.
  exists m3. split; [|split].
  - unfold bind at 1. unfold deref. rewrite Ha.
    unfold bind at 1. simpl in E1. simpl. rewrite E1.
    unfold bind. by rewrite E2.
  - split_and!.
    + apply D3, D2. eauto.
    + rewrite W3, W2. destruct (S1 A x) as (_ & _ & ->). done.
    + rewrite O3, O2. destruct (S1 A x) as (_ & -> & _). rewrite HoA.
      rewrite (decide_True (P := A = A ∧ x = x)) by done. simpl.
      by eexists _, _.
  - split_and!.
    + apply D3, D2. by apply (S1 B y).
    + rewrite W3, W2. destruct (S1 B y) as (_ & _ & ->). done.
    + rewrite O3, O2. destruct (S1 B y) as (_ & -> & _). rewrite HoB.
      rewrite (decide_True (P := B = B ∧ y = y)) by done. simpl.
      case_decide as Hd; simpl; [|by eexists _, _].
      destruct Hd as [-> ->]. by eexists _, _.
Qed.

(** C4, as the code has it: after [XLINK] on two properties without
    other callbacks, which returns, an assignment to either of them
    exceeds every call depth: it never returns. *)
Theorem xlink_assignment_never_returns fuel VS VT A x B y m :
  is_Some (owners m !! A) → is_Some (owners m !! B) →
  validators_at m A x = [] → observers_at m A x = [] →
  validators_at m B y = [] → observers_at m B y = [] →
  ∃ m', XLINK (S fuel) VS VT A x B y m = Returned tt m'
    ∧ ∀ n V v,
        assign n A x V v m' = OutOfFuel ∧ assign n B y V v m' = OutOfFuel.
Proof.
  intros HA HB HvA HoA HvB HoB.
  destruct (xlink_links fuel VS VT A x B y m) as (m' & E & LA & LB);
    try done.
  exists m'. split; [done|]. intros n V v.
  split; by eapply linked_assignment_out_of_fuel.
Qed.

Lemma assign_S fuel o I V v :
  assign (S fuel) o I V v = (assign_body (assign fuel) o I V v : M value).
Proof. done. Qed.

Lemma exec_link_callback call V A x B y view a m :
  owners m !! A = Some a →
  exec call (link_callback V A x B y view) m
  = bind (call B y V (m_value a x)) (λ _, ret tt) m.
Proof.
  intros Ho. simpl. rewrite Ho. unfold bind.
  by destruct (call B y V (m_value a x) m).
Qed.

Lemma property_lookup m o ow I :
  owners m !! o = Some ow → property m o I = Some (m_value ow I).
Proof. intros Ho. unfold property. by rewrite Ho. Qed.

(** * Further properties of the code *)

(** ** Registration and unregistration on one owner *)

Lemma register_commute {C} (reg : gmap offset (list C)) I J (a b : C) :
  I ≠ J → register I a (register J b reg) = register J b (register I a reg).
Proof.
  intros Hne. unfold register at 1 3.
  rewrite !lookup_register_ne by done.
  unfold register.
  destruct (reg !! I), (reg !! J); by rewrite insert_insert_ne.
Qed.

(** X1: [observe<I>(cb)] puts [cb] behind the observers already
    registered for [I] and touches neither the observers of another
    offset, nor the validators, nor the property values; [validate<I>]
    does the same on the validators. *)
Theorem registration_appends ow I J (cb : observer) V (f : validator) :
  J ≠ I →
  (callbacks_of (m_observers (observe I cb ow)) I
   = callbacks_of (m_observers ow) I ++ [cb]
   ∧ m_observers (observe I cb ow) !! J = m_observers ow !! J
   ∧ m_validators (observe I cb ow) = m_validators ow
   ∧ m_value (observe I cb ow) = m_value ow)
  ∧ (callbacks_of (m_validators (validate I V f ow)) I
     = callbacks_of (m_validators ow) I ++ [make_any V f]
     ∧ m_validators (validate I V f ow) !! J = m_validators ow !! J
     ∧ m_observers (validate I V f ow) = m_observers ow
     ∧ m_value (validate I V f ow) = m_value ow).
Proof.
  intros Hne. split; split_and!; try done; simpl.
  - apply callbacks_of_register.
  - by apply lookup_register_ne.
  - apply callbacks_of_register.
  - by apply lookup_register_ne.
Qed.

(** X2: on an offset nothing is registered for, [unobserve] and
    [unvalidate] change nothing, and they undo a registration: the owner
    is again what it was before [observe] (before [validate]). *)
Theorem unregistration_undoes_registration ow I (cb : observer) V
    (f : validator) :
  m_observers ow !! I = None →
  m_validators ow !! I = None →
  unobserve I ow = ow
  ∧ unobserve I (observe I cb ow) = ow
  ∧ unvalidate I ow = ow
  ∧ unvalidate I (validate I V f ow) = ow.
Proof.
  intros Ho Hv. destruct ow as [vals obs vds]. simpl in Ho, Hv.
  unfold unobserve, unvalidate, observe, validate, with_observers,
    with_validators, register. simpl. rewrite Ho, Hv.
  by rewrite !delete_insert_id, !delete_id.
Qed.

(** X3: unregistration forgets the whole list of its offset: the next
    registration for the offset starts a list with the new callback
    alone, and unregistering twice is unregistering once. *)
Theorem registration_after_unregistration ow I (cb : observer) V
    (f : validator) :
  callbacks_of (m_observers (observe I cb (unobserve I ow))) I = [cb]
  ∧ callbacks_of (m_validators (validate I V f (unvalidate I ow))) I
    = [make_any V f]
  ∧ unobserve I (unobserve I ow) = unobserve I ow
  ∧ unvalidate I (unvalidate I ow) = unvalidate I ow.
Proof.
  split_and!.
  - simpl. by rewrite callbacks_of_register, callbacks_of_delete.
  - simpl. by rewrite callbacks_of_register, callbacks_of_delete.
  - unfold unobserve, with_observers. simpl. by rewrite delete_delete_eq.
  - unfold unvalidate, with_validators. simpl. by rewrite delete_delete_eq.
Qed.

(** X4: registrations for different offsets can be made in either
    order, and so can a registration of an observer and one of a
    validator, whatever their offsets. *)
Theorem registrations_commute ow I J K (a b : observer) V W
    (f g : validator) :
  I ≠ J →
  observe I a (observe J b ow) = observe J b (observe I a ow)
  ∧ validate I V f (validate J W g ow) = validate J W g (validate I V f ow)
  ∧ validate K V f (observe I a ow) = observe I a (validate K V f ow).
Proof.
  intros Hne. unfold observe, validate, with_observers, with_validators.
  simpl. split_and!; [f_equal..|done]; by apply register_commute.
Qed.

(** ** What dispatch never does *)

Lemma grows_refl m : grows m m.
Proof. split; [apply same_registries_refl|done]. Qed.

Lemma grows_trans m1 m2 m3 : grows m1 m2 → grows m2 m3 → grows m1 m3.
Proof.
  intros [S12 P12] [S23 P23]. split.
  - by eapply same_registries_trans.
  - by etrans.
Qed.

Lemma grows_after m t : grows m (after m t).
Proof. split; [apply same_registries_after|]. simpl. by apply prefix_app_r. Qed.

Lemma bind_keeps {A B} (c : M A) (f : A → M B) :
  keeps_registries c → (∀ a, keeps_registries (f a)) →
  keeps_registries (bind c f).
Proof.
  intros Hc Hf m. unfold bind. specialize (Hc m).
  destruct (c m) as [a m1|e m1| |]; try done.
  specialize (Hf a m1).
  destruct (f a m1) as [b m2|e m2| |]; try done; by eapply grows_trans.
Qed.

Lemma deref_keeps o : keeps_registries (deref o : M Owner).
Proof.
  intros m. unfold deref. destruct (owners m !! o); [apply grows_refl|done].
Qed.

Lemma record_keeps (ev : event) : keeps_registries (record ev).
Proof. intros m. apply (grows_after m [ev]). Qed.

Lemma store_keeps o I v :
  keeps_registries (update o (set_value I v) : M unit).
Proof.
  intros m. unfold update. destruct (owners m !! o) as [ow|] eqn:Ho; [|done].
  split; [by apply same_registries_store|done].
Qed.

Lemma invoke_validators_keeps o I V v :
  keeps_registries (invoke_validators o I V v : M value).
Proof.
  intros m. pose proof (invoke_validators_frame o I V v m) as F.
  destruct (invoke_validators o I V v m); try done;
    destruct F as (t & -> & _); apply grows_after.
Qed.

Lemma exec_keeps
    (call : owner_id → offset → type_id → value → M value) p :
  (∀ o I V v, keeps_registries (call o I V v)) →
  keeps_registries (exec call p).
Proof.
  intros Hc. induction p as [|o k IH|o K V v k IH|x k IH|e]; simpl.
  - intros m. apply grows_refl.
  - intros m. destruct (owners m !! o) as [ow|]; [apply IH|done].
  - apply (bind_keeps (call o K V v) (λ _, exec call k)); [apply Hc|done].
  - apply bind_keeps; [apply record_keeps|done].
  - intros m. apply grows_refl.
Qed.

Lemma observers_loop_keeps
    (call : owner_id → offset → type_id → value → M value) o I
    (callbacks : list observer) :
  (∀ o I V v, keeps_registries (call o I V v)) →
  keeps_registries (observers_loop call o I callbacks).
Proof.
  intros Hc. induction callbacks as [|it rest IH]; simpl.
  - intros m. apply grows_refl.
  - apply bind_keeps; [apply deref_keeps|]. intros this.
    apply bind_keeps; [apply record_keeps|]. intros _.
    apply bind_keeps; [by apply exec_keeps|done].
Qed.

Lemma assign_body_keeps
    (call : owner_id → offset → type_id → value → M value) o I V v :
  (∀ o I V v, keeps_registries (call o I V v)) →
  keeps_registries (assign_body call o I V v).
Proof.
  intros Hc. unfold assign_body.
  apply bind_keeps; [apply invoke_validators_keeps|]. intros v'.
  apply bind_keeps; [apply store_keeps|]. intros _.
  apply bind_keeps.
  - unfold invoke_observers. apply bind_keeps; [apply deref_keeps|].
    intros this. destruct (m_observers this !! I).
    + by apply observers_loop_keeps.
    + intros m. apply grows_refl.
  - intros _. apply bind_keeps; [apply deref_keeps|].
    intros this m. apply grows_refl.
Qed.

(** X5: however the observers reached by an assignment re-enter
    [operator=], and whether the assignment returns or leaves by an
    exception, it ends with the same owners and, for every property, the
    same observers and validators registered as before, and what had
    been called and said before is still the beginning of the record. *)
Theorem assign_keeps_registries n o I V v m :
  match assign n o I V v m with
  | Returned _ m' | Thrown _ m' =>
      same_registries m m' ∧ calls m `prefix_of` calls m'
  | Undefined | OutOfFuel => True
  end.
Proof.
  revert o I V v m. induction n as [|n IH]; intros o I V v m; [done|].
  apply (assign_body_keeps (assign n) o I V v). intros o' I' V' v' m'.
  apply IH.
Qed.

(** ** What an assignment changes *)

Lemma read_property o I m v :
  property m o I = Some v → read o I m = Returned v m.
Proof.
  unfold property, read, bind, deref.
  destruct (owners m !! o); simpl; [|done]. unfold ret. congruence.
Qed.

Lemma chain_app view (vs ws : list (props → value → value)) v :
  chain view (vs ++ ws) v = chain view ws (chain view vs v).
Proof. unfold chain. apply foldl_app. Qed.

(** X6: an assignment whose observers are passive changes the assigned
    property and nothing else: every other property of the owner and
    every other owner are as before, and reading the property
    afterwards yields the validated value and changes nothing. *)
Theorem assign_changes_one_property fuel o ow I V v v' m mv :
  owners m !! o = Some ow →
  Forall passive (callbacks_of (m_observers ow) I) →
  invoke_validators o I V v m = Returned v' mv →
  ∃ m', assign (S fuel) o I V v m = Returned v' m'
    ∧ (∀ o' I', property m' o' I'
                = if decide (o' = o ∧ I' = I) then Some v'
                  else property m o' I')
    ∧ (∀ o', o' ≠ o → owners m' !! o' = owners m !! o')
    ∧ read o I m' = Returned v' m'.
Proof.
  intros Ho Hp Hv. eexists. split; [by eapply assign_body_passive|].
  apply invoke_validators_returned in Hv as (t & -> & _).
  assert (∀ o' I',
    property (after (with_owner o (set_value I v' ow) (after m t))
      (observer_calls o I (<[I:=v']> (m_value ow))
         (callbacks_of (m_observers ow) I))) o' I'
    = if decide (o' = o ∧ I' = I) then Some v' else property m o' I') as HP.
  { intros o' I'. rewrite property_after, with_owner_after, property_after.
    by apply property_store. }
  split_and!; [done| |].
  - intros o' Hne. simpl. by rewrite lookup_insert_ne.
  - apply read_property. rewrite HP. by rewrite decide_True.
Qed.

(** X7: an assignment does not look at the value the property holds:
    assigning to a property without validators the value read from it
    leaves every property as it is and still calls every observer of the
    property. *)
Theorem assign_same_value_still_notifies fuel o ow I V m :
  owners m !! o = Some ow →
  callbacks_of (m_validators ow) I = [] →
  Forall passive (callbacks_of (m_observers ow) I) →
  ∃ m', bind (read o I) (λ x, assign (S fuel) o I V x) m
        = Returned (m_value ow I) m'
    ∧ (∀ o' I', property m' o' I' = property m o' I')
    ∧ calls m'
      = calls m
        ++ observer_calls o I (<[I := m_value ow I]> (m_value ow))
             (callbacks_of (m_observers ow) I).
Proof.
  intros Ho Hv Hp. eexists. split_and!.
  - unfold bind at 1. erewrite read_property by by apply property_lookup.
    eapply assign_body_passive; [done| |done].
    by eapply invoke_validators_nil.
  - intros o' I'. rewrite property_after.
    erewrite property_store by done. case_decide as Hd; [|done].
    destruct Hd as [-> ->]. by erewrite property_lookup.
  - done.
Qed.

(** X8: a validator that answers with the value the property holds
    vetoes the assignment, whatever the validators before it made of the
    proposal: every property is as before; the observers of the property
    are called all the same. *)
Theorem vetoing_validator_keeps_value fuel o ow I V
    (vs : list (props → value → value)) v m :
  callbacks_of (m_validators ow) I = [] →
  Forall passive (callbacks_of (m_observers ow) I) →
  owners m !! o = Some (validated_by I V (vs ++ [current I]) ow) →
  ∃ m', assign (S fuel) o I V v m = Returned (m_value ow I) m'
    ∧ (∀ o' I', property m' o' I' = property m o' I')
    ∧ calls m'
      = calls m
        ++ validation_calls o I (m_value ow) (vs ++ [current I]) v
        ++ observer_calls o I (<[I := m_value ow I]> (m_value ow))
             (callbacks_of (m_observers ow) I).
Proof.
  intros Hv Hp Ho.
  set (ow' := validated_by I V (vs ++ [current I]) ow) in *.
  assert (m_value ow' = m_value ow) as Hval
    by (unfold ow'; by rewrite validated_by_registry).
  assert (m_observers ow' = m_observers ow) as Hobs
    by (unfold ow'; by rewrite validated_by_registry).
  assert (invoke_validators o I V v m
          = Returned (m_value ow I)
              (after m (validation_calls o I (m_value ow)
                          (vs ++ [current I]) v))) as Hvalid.
  { erewrite invoke_validators_callbacks by done. unfold ow'.
    rewrite validated_by_callbacks, Hv. fold ow'. rewrite Hval. simpl.
    rewrite validators_loop_total. by rewrite chain_app. }
  eexists. split_and!.
  - eapply assign_body_passive; [done..|by rewrite Hobs].
  - intros o' I'. rewrite property_after, with_owner_after, property_after.
    erewrite property_store by done. case_decide as Hd; [|done].
    destruct Hd as [-> ->]. erewrite property_lookup by done.
    by rewrite Hval.
  - simpl. by rewrite Hval, Hobs, app_assoc.
Qed.

(** X9: a validator that throws ends validation: the validators
    registered after it are not called, and the assignment leaves by its
    exception with every owner as before. *)
Theorem throwing_validator_stops_chain fuel o ow I V
    (pre post : list any) (a : any) v c e m mp :
  owners m !! o = Some ow →
  callbacks_of (m_validators ow) I = pre ++ a :: post →
  any_type a = V →
  validators_loop o I V (m_value ow) pre v m = Returned c mp →
  any_fn a (m_value ow) c = inl e →
  assign (S fuel) o I V v m
  = Thrown e (after mp [validator_called o I (any_fn a) (m_value ow) c])
  ∧ owners mp = owners m.
Proof.
  intros Ho Hcbs Ht Hpre Ha.
  assert (invoke_validators o I V v m
          = Thrown e
              (after mp [validator_called o I (any_fn a) (m_value ow) c]))
    as Hv.
  { erewrite invoke_validators_callbacks by done.
    rewrite Hcbs, validators_loop_app. unfold bind. rewrite Hpre. simpl.
    unfold any_cast. rewrite decide_True by done.
    unfold bind, record. simpl. by rewrite Ha. }
  split; [by apply assign_body_thrown|].
  by apply invoke_validators_thrown in Hv as (t & Ht' & _);
    apply (f_equal owners) in Ht'.
Qed.

(** ** One-way links *)

(** [unobserve] empties the observers of its offset and touches nothing
    else. *)
Lemma unobserve_at o ow I m :
  owners m !! o = Some ow →
  XUNOBSERVE o I m = Returned tt (with_owner o (unobserve I ow) m)
  ∧ (∀ o', is_Some (owners (with_owner o (unobserve I ow) m) !! o')
           ↔ is_Some (owners m !! o'))
  ∧ (∀ o' I', property (with_owner o (unobserve I ow) m) o' I'
              = property m o' I')
  ∧ (∀ o' I', validators_at (with_owner o (unobserve I ow) m) o' I'
              = validators_at m o' I')
  ∧ (∀ o' I', observers_at (with_owner o (unobserve I ow) m) o' I'
              = if decide (o' = o ∧ I' = I) then []
                else observers_at m o' I').
Proof.
  intros Ho. split; [unfold XUNOBSERVE, update; by rewrite Ho|].
  unfold property, validators_at, observers_at. simpl.
  split_and!; intros o'; try intros I';
    (destruct (decide (o = o')) as [<-|Hne];
     [rewrite lookup_insert_eq, Ho; simpl|rewrite lookup_insert_ne by done]).
  - split; eauto.
  - done.
  - done.
  - done.
  - done.
  - done.
  - destruct (decide (I = I')) as [<-|HneI].
    + rewrite decide_True by done. apply callbacks_of_delete.
    + rewrite decide_False by (intros [_ ?]; done).
      by apply callbacks_of_delete_ne.
  - by rewrite decide_False by (intros [? _]; done).
Qed.

(** [XDLINK] onto a property without validators whose observers are
    passive: the target takes the value of the source, the link callback
    is the last observer of the source, nothing else changes. *)
Lemma xdlink_at fuel VL A x B y m :
  is_Some (owners m !! A) → is_Some (owners m !! B) →
  validators_at m B y = [] →
  Forall passive (observers_at m B y) →
  ∃ m1, XDLINK (S fuel) VL A x B y m = Returned tt m1
    ∧ (∀ o', is_Some (owners m1 !! o') ↔ is_Some (owners m !! o'))
    ∧ (∀ o' I', property m1 o' I'
                = if decide (o' = B ∧ I' = y) then property m A x
                  else property m o' I')
    ∧ (∀ o' I', validators_at m1 o' I' = validators_at m o' I')
    ∧ (∀ o' I', observers_at m1 o' I'
                = observers_at m o' I'
                  ++ if decide (o' = A ∧ I' = x)
                     then [link_callback VL A x B y] else []).
Proof.
  intros [a Ha] HB HvB HpB. unfold XDLINK.
  destruct (assign_passive_at (assign fuel) B y VL (m_value a x) m)
    as (m0 & E0 & S0 & P0); [done..|].
  assert (is_Some (owners m0 !! A)) as [a0 Ha0]
    by (apply (S0 A x); eauto).
  destruct (observe_at A a0 x (link_callback VL A x B y) m0 Ha0)
    as (E1 & D1 & P1 & W1 & O1).
  eexists. split_and!.
  - unfold bind at 1. unfold deref. rewrite Ha.
    unfold bind at 1. rewrite assign_S, E0. exact E1.
  - intros o'. rewrite D1. apply (S0 o' x).
  - intros o' I'. rewrite P1, P0. by erewrite (property_lookup m A).
  - intros o' I'. rewrite W1. apply (S0 o' I').
  - intros o' I'. rewrite O1. f_equal. apply (S0 o' I').
Qed.

(** X10: [XDLINK] onto a target whose first validator is stored under
    another type than the one of the expression [S.SA] leaves by
    [bad_any_cast] out of its first statement: nothing is copied and no
    observer is registered on the source. *)
Theorem xdlink_onto_mismatched_validator fuel VL A x B y a b
    (first : any) (rest : list any) m :
  owners m !! A = Some a →
  owners m !! B = Some b →
  callbacks_of (m_validators b) y = first :: rest →
  any_type first ≠ VL →
  XDLINK (S fuel) VL A x B y m = Thrown bad_any_cast m.
Proof.
  intros Ha Hb Hcbs Hne. unfold XDLINK.
  unfold bind at 1. unfold deref. rewrite Ha.
  unfold bind at 1. rewrite assign_S.
  erewrite assign_body_thrown; [done|].
  erewrite invoke_validators_callbacks by done. rewrite Hcbs. simpl.
  unfold any_cast. by rewrite decide_False.
Qed.

(** X11: a one-way link does not run backwards: after [XDLINK] an
    assignment to the target returns with the proposed value in the
    target and leaves the source as it was. *)
Theorem xdlink_is_one_way fuel VL A x B y m :
  is_Some (owners m !! A) → is_Some (owners m !! B) →
  (A, x) ≠ (B, y) →
  validators_at m B y = [] →
  Forall passive (observers_at m B y) →
  ∃ m1, XDLINK (S fuel) VL A x B y m = Returned tt m1
    ∧ ∀ V v,
        ∃ m2, assign (S fuel) B y V v m1 = Returned v m2
          ∧ property m2 B y = Some v
          ∧ property m2 A x = property m A x.
Proof.
  intros HA HB Hne HvB HpB.
  destruct (xdlink_at fuel VL A x B y m) as (m1 & E & D1 & P1 & W1 & O1);
    [done..|].
  assert (¬ (B = A ∧ y = x)) as Hne1 by (intros [-> ->]; done).
  assert (¬ (A = B ∧ x = y)) as Hne2 by (intros [-> ->]; done).
  exists m1. split; [done|]. intros V v.
  destruct (assign_passive_at (assign fuel) B y V v m1)
    as (m2 & E2 & _ & P2).
  - by apply D1.
  - by rewrite W1.
  - rewrite O1. rewrite decide_False by done. by rewrite app_nil_r.
  - exists m2. split_and!; [done| |].
    + rewrite P2. by rewrite decide_True.
    + rewrite P2, P1. by rewrite !decide_False.
Qed.

(** X12: [XUNOBSERVE] on the source takes the link away with the other
    observers of the source: a later assignment to the source stores the
    validated value, calls no observer and leaves in the target the
    value it got when the link was made. *)
Theorem xunobserve_breaks_link fuel VL A x B y m :
  is_Some (owners m !! A) → is_Some (owners m !! B) →
  (A, x) ≠ (B, y) →
  validators_at m B y = [] →
  Forall passive (observers_at m B y) →
  ∃ m2, bind (XDLINK (S fuel) VL A x B y) (λ _, XUNOBSERVE A x) m
        = Returned tt m2
    ∧ ∀ V v v' mv,
        invoke_validators A x V v m2 = Returned v' mv →
        ∃ m3, assign (S fuel) A x V v m2 = Returned v' m3
          ∧ property m3 A x = Some v'
          ∧ property m3 B y = property m A x
          ∧ calls m3 = calls mv.
Proof.
  intros HA HB Hne HvB HpB.
  destruct (xdlink_at fuel VL A x B y m) as (m1 & E & D1 & P1 & W1 & O1);
    [done..|].
  assert (¬ (B = A ∧ y = x)) as Hne1 by (intros [-> ->]; done).
  assert (is_Some (owners m1 !! A)) as [a1 Ha1] by by apply D1.
  destruct (unobserve_at A a1 x m1 Ha1) as (E2 & D2 & P2 & W2 & O2).
  set (m2 := with_owner A (unobserve x a1) m1) in *.
  exists m2. split.
  { unfold bind. by rewrite E, E2. }
  intros V v v' mv Hv.
  assert (owners m2 !! A = Some (unobserve x a1)) as Ha2
    by (simpl; by rewrite lookup_insert_eq).
  assert (callbacks_of (m_observers (unobserve x a1)) x = []) as Hnone
    by apply callbacks_of_delete.
  eexists. split_and!.
  - eapply assign_body_passive; [done..|]. rewrite Hnone. constructor.
  - apply invoke_validators_returned in Hv as (t & -> & _).
    rewrite property_after, with_owner_after, property_after.
    erewrite property_store by done. by rewrite decide_True.
  - apply invoke_validators_returned in Hv as (t & -> & _).
    rewrite property_after, with_owner_after, property_after.
    erewrite property_store by done. rewrite decide_False by done.
    rewrite P2, P1. by rewrite decide_True.
  - rewrite Hnone. simpl. by rewrite app_nil_r.
Qed.

Lemma invoke_validators_nil_at o I V v m :
  is_Some (owners m !! o) → validators_at m o I = [] →
  invoke_validators o I V v m = Returned v m.
Proof.
  intros [ow Ho] Hv. unfold validators_at in Hv. rewrite Ho in Hv.
  by eapply invoke_validators_nil.
Qed.

(** An assignment to a property whose last observer is a link callback,
    the observers before it being passive: once the value is stored and
    those observers have run, what is left is the assignment to the
    target of the link and the final read. *)
Lemma assign_linked_at
    (call : owner_id → offset → type_id → value → M value)
    o I V v v' m mv (pre : list observer) VL T TA :
  is_Some (owners m !! o) →
  invoke_validators o I V v m = Returned v' mv →
  observers_at m o I = pre ++ [link_callback VL o I T TA] →
  Forall passive pre →
  ∃ m4, assign_body call o I V v m
        = bind (call T TA VL v') (λ _, read o I) m4
    ∧ same_registries m m4
    ∧ ∀ o' I', property m4 o' I'
               = if decide (o' = o ∧ I' = I) then Some v'
                 else property m o' I'.
Proof.
  intros [ow Ho] Hv Hobs Hp. unfold observers_at in Hobs.
  rewrite Ho in Hobs. simpl in Hobs.
  erewrite assign_body_validated by done. rewrite Hobs.
  apply invoke_validators_returned in Hv as (t & -> & _).
  set (m2 := with_owner o (set_value I v' ow) (after m t)).
  assert (owners m2 !! o = Some (set_value I v' ow)) as Ho2
    by (simpl; by rewrite lookup_insert_eq).
  unfold bind at 1. rewrite observers_loop_app. unfold bind at 1.
  rewrite (observers_loop_passive _ _ _ _ _ _ Ho2 Hp).
  erewrite observers_loop_cons by done.
  unfold bind at 1. erewrite exec_link_callback by done.
  simpl m_value. rewrite props_lookup_insert, after_app.
  exists (after m2
    (observer_calls o I (<[I:=v']> (m_value ow)) pre
     ++ [observer_called o I (link_callback VL o I T TA)
           (<[I:=v']> (m_value ow))])).
  split_and!.
  - unfold bind, read, deref.
    by destruct (call T TA VL v' _) as [w m5| | |].
  - eapply same_registries_trans; [|apply same_registries_after].
    eapply same_registries_trans; [apply (same_registries_after _ t)|].
    by apply same_registries_store.
  - intros o' I'. rewrite property_after. unfold m2.
    rewrite with_owner_after, property_after. by apply property_store.
Qed.

(** An assignment to a property without validators one of whose
    observers throws, the observers before it being passive. *)
Lemma assign_thrown_at
    (call : owner_id → offset → type_id → value → M value)
    o I V v m (pre post : list observer) (cb : observer) e :
  is_Some (owners m !! o) →
  validators_at m o I = [] →
  observers_at m o I = pre ++ cb :: post →
  Forall passive pre →
  (∀ view, throws e (cb view)) →
  ∃ m', assign_body call o I V v m = Thrown e m'
    ∧ ∀ o' I', property m' o' I'
               = if decide (o' = o ∧ I' = I) then Some v
                 else property m o' I'.
Proof.
  intros Hs Hv Hobs Hp Hcb.
  pose proof (invoke_validators_nil_at o I V v m Hs Hv) as Hval.
  destruct Hs as [ow Ho]. unfold observers_at in Hobs.
  rewrite Ho in Hobs. simpl in Hobs.
  erewrite assign_body_validated by done. rewrite Hobs.
  set (m2 := with_owner o (set_value I v ow) m).
  assert (owners m2 !! o = Some (set_value I v ow)) as Ho2
    by (simpl; by rewrite lookup_insert_eq).
  unfold bind at 1. rewrite observers_loop_app. unfold bind at 1.
  rewrite (observers_loop_passive _ _ _ _ _ _ Ho2 Hp).
  erewrite observers_loop_cons by done.
  unfold bind at 1. rewrite (exec_throws _ e) by apply Hcb.
  eexists. split; [done|].
  intros o' I'. rewrite !property_after. by apply property_store.
Qed.

(** X13: one-way links compose: with a link from a first property to a
    second and one from the second to a third, an assignment to the
    first returns, within the one call, with its validated value in all
    three. *)
Theorem xdlink_chain_follows fuel V1 V2 A x B y C z m :
  is_Some (owners m !! A) → is_Some (owners m !! B) →
  is_Some (owners m !! C) →
  (A, x) ≠ (B, y) → (B, y) ≠ (C, z) → (A, x) ≠ (C, z) →
  validators_at m B y = [] → validators_at m C z = [] →
  Forall passive (observers_at m A x) →
  Forall passive (observers_at m B y) →
  Forall passive (observers_at m C z) →
  ∃ m2, bind (XDLINK (S fuel) V1 A x B y)
          (λ _, XDLINK (S fuel) V2 B y C z) m
        = Returned tt m2
    ∧ property m2 B y = property m A x
    ∧ property m2 C z = property m A x
    ∧ ∀ V v v' mv,
        invoke_validators A x V v m2 = Returned v' mv →
        ∃ m3, assign (S (S (S fuel))) A x V v m2 = Returned v' m3
          ∧ property m3 A x = Some v'
          ∧ property m3 B y = Some v'
          ∧ property m3 C z = Some v'.
Proof.
  intros HA HB HC Hab Hbc Hac HvB HvC HpA HpB HpC.
  assert (¬ (B = A ∧ y = x)) as Nba by (intros [-> ->]; done).
  assert (¬ (A = B ∧ x = y)) as Nab by (intros [-> ->]; done).
  assert (¬ (C = B ∧ z = y)) as Ncb by (intros [-> ->]; done).
  assert (¬ (B = C ∧ y = z)) as Nbc by (intros [-> ->]; done).
  assert (¬ (C = A ∧ z = x)) as Nca by (intros [-> ->]; done).
  assert (¬ (A = C ∧ x = z)) as Nac by (intros [-> ->]; done).
  destruct (xdlink_at fuel V1 A x B y m) as (m1 & E1 & D1 & P1 & W1 & O1);
    [done..|].
  destruct (xdlink_at fuel V2 B y C z m1) as (m2 & E2 & D2 & P2 & W2 & O2).
  { by apply D1. }
  { by apply D1. }
  { by rewrite W1. }
  { rewrite O1. rewrite decide_False by done. by rewrite app_nil_r. }
  exists m2. split_and!.
  - unfold bind. by rewrite E1.
  - rewrite P2, decide_False, P1, decide_True by done. done.
  - rewrite P2, decide_True, P1, decide_True by done. done.
  - intros V v v' mv Hv.
    destruct (assign_linked_at (assign (S (S fuel))) A x V v v' m2 mv
      (observers_at m A x) V1 B y) as (m4 & E4 & S4 & P4); [| done | | done |].
    { by apply D2, D1. }
    { rewrite O2, O1. rewrite decide_True, decide_False by done.
      by rewrite app_nil_r. }
    destruct (S4 B y) as (D4 & O4 & W4).
    destruct (assign_linked_at (assign (S fuel)) B y V1 v' v' m4 m4
      (observers_at m B y) V2 C z) as (m5 & E5 & S5 & P5); [| | | done |].
    { by apply D4, D2, D1. }
    { apply invoke_validators_nil_at; [by apply D4, D2, D1|].
      by rewrite W4, W2, W1. }
    { rewrite O4, O2, O1. rewrite decide_False, decide_True by done.
      by rewrite app_nil_r. }
    destruct (S5 C z) as (D5 & O5 & W5).
    destruct (S4 C z) as (D4' & O4' & W4').
    destruct (assign_passive_at (assign fuel) C z V2 v' m5)
      as (m6 & E6 & S6 & P6).
    { by apply D5, D4', D2, D1. }
    { by rewrite W5, W4', W2, W1. }
    { rewrite O5, O4', O2, O1. rewrite !decide_False by done.
      by rewrite !app_nil_r. }
    assert (property m6 B y = Some v') as PB.
    { rewrite P6, decide_False, P5, decide_True by done. done. }
    assert (property m6 A x = Some v') as PA.
    { rewrite P6, decide_False, P5, decide_False, P4, decide_True by done.
      done. }
    assert (property m6 C z = Some v') as PC
      by (rewrite P6; by rewrite decide_True).
    exists m6. split_and!; [|done..].
    rewrite assign_S, E4. unfold bind at 1.
    rewrite assign_S, E5. unfold bind at 1.
    rewrite assign_S, E6.
    rewrite (read_property B y m6 v') by done.
    by apply read_property.
Qed.

(** X14: an exception thrown by an observer of the target of a link
    leaves the assignment to the source: that assignment leaves by it
    with the new value stored in the source and in the target. *)
Theorem observer_exception_crosses_link fuel VL A x B y V v v' e m mv
    (preA preB postB : list observer) (cb : observer) :
  is_Some (owners m !! A) → is_Some (owners m !! B) →
  (A, x) ≠ (B, y) →
  invoke_validators A x V v m = Returned v' mv →
  observers_at m A x = preA ++ [link_callback VL A x B y] →
  Forall passive preA →
  validators_at m B y = [] →
  observers_at m B y = preB ++ cb :: postB →
  Forall passive preB →
  (∀ view, throws e (cb view)) →
  ∃ m', assign (S (S fuel)) A x V v m = Thrown e m'
    ∧ property m' A x = Some v'
    ∧ property m' B y = Some v'.
Proof.
  intros HA HB Hne Hv HoA HpA HvB HoB HpB Hcb.
  assert (¬ (A = B ∧ x = y)) as Nab by (intros [-> ->]; done).
  destruct (assign_linked_at (assign (S fuel)) A x V v v' m mv preA VL B y)
    as (m4 & E4 & S4 & P4); [done..|].
  destruct (S4 B y) as (D4 & O4 & W4).
  destruct (assign_thrown_at (assign fuel) B y VL v' m4 preB postB cb e)
    as (m5 & E5 & P5); [by apply D4|by rewrite W4|by rewrite O4|done..|].
  exists m5. split_and!.
  - rewrite assign_S, E4. unfold bind at 1. by rewrite assign_S, E5.
  - rewrite P5, decide_False, P4, decide_True by done. done.
  - rewrite P5. by rewrite decide_True.
Qed.

(** ** Copies and fresh owners on the machine *)

(** X15: the copy of an owner answers to the callbacks of the source:
    an assignment to a property of the copy calls the observers that were
    registered on the source, in their order, handing them the copy, and
    leaves the source as it is. *)
Theorem copied_owner_calls_source_observers fuel other this ow I V v v'
    m mv :
  owners m !! other = Some ow →
  this ≠ other →
  Forall passive (callbacks_of (m_observers ow) I) →
  invoke_validators this I V v (with_owner this (copy_construct ow) m)
  = Returned v' mv →
  ∃ m', bind (construct_from copy_construct other this)
          (λ _, assign (S fuel) this I V v) m
        = Returned v' m'
    ∧ calls m'
      = calls mv
        ++ observer_calls this I (<[I := v']> (m_value ow))
             (callbacks_of (m_observers ow) I)
    ∧ property m' this I = Some v'
    ∧ owners m' !! other = Some ow.
Proof.
  intros Ho Hne Hp Hv.
  set (m0 := with_owner this (copy_construct ow) m) in *.
  assert (owners m0 !! this = Some (copy_construct ow)) as Ho0
    by (simpl; by rewrite lookup_insert_eq).
  eexists. split_and!.
  - unfold bind at 1. unfold construct_from. rewrite Ho.
    fold (with_owner this (copy_construct ow) m). fold m0.
    by eapply assign_body_passive.
  - done.
  - apply invoke_validators_returned in Hv as (t & -> & _).
    rewrite property_after, with_owner_after, property_after.
    erewrite property_store by done. by rewrite decide_True.
  - apply invoke_validators_returned in Hv as (t & -> & _).
    simpl. by rewrite !lookup_insert_ne.
Qed.

(** X16: a freshly constructed owner has no callbacks: the first
    assignment to one of its properties stores the proposed value and
    calls nothing, and its other properties hold their initial values. *)
Theorem fresh_owner_stores_proposal fuel this init I J V v m :
  J ≠ I →
  ∃ m', bind (construct_at this init) (λ _, assign (S fuel) this I V v) m
        = Returned v m'
    ∧ calls m' = calls m
    ∧ property m' this I = Some v
    ∧ property m' this J = Some (init J).
Proof.
  intros Hne.
  set (m0 := with_owner this (construct init) m).
  assert (owners m0 !! this = Some (construct init)) as Ho0
    by (simpl; by rewrite lookup_insert_eq).
  eexists. split_and!.
  - unfold bind at 1. unfold construct_at.
    fold (with_owner this (construct init) m). fold m0.
    eapply assign_body_passive; [done| |constructor].
    by eapply invoke_validators_nil.
  - simpl. by rewrite app_nil_r.
  - rewrite property_after. erewrite property_store by done.
    by rewrite decide_True.
  - rewrite property_after. erewrite property_store by done.
    rewrite decide_False by (intros [_ ?]; done).
    by rewrite (property_lookup m0 this (construct init)).
Qed.

(** ** Static dispatch *)

(** X17: a static validator is chosen by the offset and by the type the
    assignment is instantiated with.  An assignment instantiated with the
    type of the specialization stores what the validator returns; one
    instantiated with a type that has no specialization stores the
    proposed value unvalidated, without any error.  Either way the
    static observer of the offset, if there is one, is called after the
    store. *)
Theorem static_validator_is_chosen_by_type
    (call : owner_id → offset → type_id → value → M value)
    (sp : specializations) o ow I T V (f : props → value → value) v m :
  owners m !! o = Some ow →
  validators_static sp I T = Some (total f) →
  validators_static sp I V = None →
  Forall passive (option_list (observers_static sp I)) →
  static_assign call sp o I T v m
  = Returned (f (m_value ow) v)
      (after (with_owner o (set_value I (f (m_value ow) v) ow) m)
         (validator_called o I (total f) (m_value ow) v
          :: observer_calls o I (<[I := f (m_value ow) v]> (m_value ow))
               (option_list (observers_static sp I))))
  ∧ static_assign call sp o I V v m
    = Returned v
        (after (with_owner o (set_value I v ow) m)
           (observer_calls o I (<[I := v]> (m_value ow))
              (option_list (observers_static sp I)))).
Proof.
  intros Ho HT HV Hp.
  assert (∀ w m1, owners m1 !! o = Some (set_value I w ow) →
    bind (static_invoke_observers call sp o I)
      (λ _, bind (deref o) (λ this, ret (m_value this I))) m1
    = Returned w
        (after m1 (observer_calls o I (<[I := w]> (m_value ow))
                     (option_list (observers_static sp I))))) as Hobs.
  { intros w m1 Ho1. unfold static_invoke_observers.
    destruct (observers_static sp I) as [body|]; simpl.
    - apply Forall_cons in Hp as [Hbody _].
      unfold bind, deref, record. rewrite Ho1. simpl.
      fold (after m1 [observer_called o I body (<[I:=w]> (m_value ow))]).
      rewrite exec_only_outputs by apply Hbody. simpl. rewrite Ho1.
      unfold ret. simpl. rewrite props_lookup_insert, after_app.
      by rewrite app_nil_r.
    - unfold bind, deref, ret. rewrite Ho1. simpl.
      by rewrite props_lookup_insert, after_nil. }
  split.
  - unfold static_assign, static_invoke_validators. rewrite HT.
    unfold bind at 1. unfold bind at 1. unfold deref. rewrite Ho.
    unfold bind at 1. unfold record, total, ret. simpl.
    unfold bind at 1. unfold update. simpl. rewrite Ho.
    rewrite (Hobs (f (m_value ow) v))
      by (simpl; by rewrite lookup_insert_eq).
    unfold after, with_owner. simpl. by rewrite <- app_assoc.
  - unfold static_assign, static_invoke_validators. rewrite HV.
    unfold bind at 1. unfold ret at 1.
    unfold bind at 1. unfold update. rewrite Ho.
    by rewrite (Hobs v) by (simpl; by rewrite lookup_insert_eq).
Qed.

(** ** Re-entrant observers *)

(** [XLINK] is [XDLINK] followed by the registration of the callback
    that links the target back to the source. *)
Lemma XLINK_as_XDLINK fuel VS VT A x B y m :
  XLINK fuel VS VT A x B y m
  = bind (XDLINK fuel VS A x B y)
      (λ _, XOBSERVE B y (link_callback VT B y A x)) m.
Proof.
  unfold XLINK, XDLINK, bind.
  destruct (deref A m) as [s m0| | |]; try done.
  by destruct (assign fuel B y VS (m_value s x) m0) as [w m1| | |].
Qed.

(** X18: [XLINK] on two properties, the target having no validator and
    only passive observers, returns with the value of the source in both
    properties. *)
Theorem xlink_copies_source fuel VS VT A x B y m :
  is_Some (owners m !! A) → is_Some (owners m !! B) →
  validators_at m B y = [] →
  Forall passive (observers_at m B y) →
  ∃ m', XLINK (S fuel) VS VT A x B y m = Returned tt m'
    ∧ property m' A x = property m A x
    ∧ property m' B y = property m A x.
Proof.
  intros HA HB HvB HpB.
  destruct (xdlink_at fuel VS A x B y m) as (m1 & E & D1 & P1 & W1 & O1);
    [done..|].
  assert (is_Some (owners m1 !! B)) as [b1 Hb1] by by apply D1.
  destruct (observe_at B b1 y (link_callback VT B y A x) m1 Hb1)
    as (E2 & _ & P2 & _).
  eexists. split_and!.
  - rewrite XLINK_as_XDLINK. unfold bind. rewrite E. exact E2.
  - rewrite P2, P1. by case_decide.
  - rewrite P2, P1. by rewrite decide_True.
Qed.

(** X19: nothing stops an observer from assigning to the property it
    observes: when an observer of a property without validators assigns
    to that property whatever it is shown, the observers before it being
    passive, no assignment to the property returns, at any call
    depth. *)
Theorem self_assigning_observer_never_returns n o I V V' v m
    (pre post : list observer) (cb : observer) (g : props → value)
    (k : props → prog) :
  is_Some (owners m !! o) →
  validators_at m o I = [] →
  observers_at m o I = pre ++ cb :: post →
  Forall passive pre →
  (∀ view, cb view = Assign o I V' (g view) (k view)) →
  assign n o I V v m = OutOfFuel.
Proof.
  intros Hs Hv Hobs Hp Hcb. revert V v m Hs Hv Hobs.
  induction n as [|n IH]; intros V v m Hs Hv Hobs; [done|].
  pose proof (invoke_validators_nil_at o I V v m Hs Hv) as Hval.
  destruct Hs as [ow Ho]. pose proof Hobs as Hobs'.
  unfold observers_at in Hobs'. rewrite Ho in Hobs'. simpl in Hobs'.
  rewrite assign_S. erewrite assign_body_validated by done.
  rewrite Hobs'.
  set (m2 := with_owner o (set_value I v ow) m).
  assert (owners m2 !! o = Some (set_value I v ow)) as Ho2
    by (simpl; by rewrite lookup_insert_eq).
  assert (same_registries m m2) as S2 by by apply same_registries_store.
  unfold bind at 1. rewrite observers_loop_app. unfold bind at 1.
  rewrite (observers_loop_passive _ _ _ _ _ _ Ho2 Hp).
  erewrite observers_loop_cons by done.
  unfold bind at 1. rewrite Hcb. simpl exec.
  rewrite IH; [done|..].
  - apply (S2 o I). eauto.
  - destruct (S2 o I) as (_ & _ & W). by rewrite <- Hv, <- W.
  - destruct (S2 o I) as (_ & O & _). by rewrite <- Hobs, <- O.
Qed.

(** ** A link in force *)





End theory.

(** * The statements on the sample instance *)

Section sample.

Import Sample.

Lemma assign_without_callbacks_witness :
  owners two_owners !! foo = Some blank
  ∧ assign 1 foo bar t_double 5%Z two_owners
    = Returned 5%Z (with_owner foo (set_value bar 5%Z blank) two_owners).
Proof.
  assert (owners two_owners !! foo = Some blank) as Ho by reflexivity.
  split; [exact Ho|].
  exact (proj1 (proj2 (assign_without_callbacks 0 foo blank bar t_double
    5%Z two_owners Ho eq_refl eq_refl))).
Defined.

(** Clamping 150 to 100 and doubling it stores 200; without the
    validators 150 itself is stored. *)
Lemma assign_folds_validators_witness :
  (∃ m', assign 1 foo bar t_double 150%Z (with_foo clamped_twice)
         = Returned 200%Z m'
         ∧ property m' foo bar = Some 200%Z)
  ∧ (∃ m', bind (XUNVALIDATE foo bar)
             (λ _, assign 1 foo bar t_double 150%Z) (with_foo clamped_twice)
           = Returned 150%Z m'
           ∧ property m' foo bar = Some 150%Z).
Proof.
  destruct (assign_folds_validators 0 foo watched bar t_double [clamp; twice]
    150%Z (with_foo clamped_twice)) as (E1 & _ & E2).
  - reflexivity.
  - repeat constructor.
  - reflexivity.
  - split; eexists; (split; [eassumption|reflexivity]).
Defined.

(** The observers see 100, the clamped value, in registration order. *)
Lemma assign_notifies_in_order_witness :
  ∃ m', assign 1 foo bar t_double 150%Z (with_foo clamped_watched)
        = Returned 100%Z m'
    ∧ calls m'
      = [validator_called foo bar (total clamp) (λ _, 0%Z) 150%Z;
         observer_called foo bar watcher (<[bar := 100%Z]> (λ _, 0%Z));
         said ("watcher"%string, 100%Z);
         observer_called foo bar logger (<[bar := 100%Z]> (λ _, 0%Z));
         said ("logger"%string, 100%Z)].
Proof.
  destruct (assign_notifies_in_order 0 foo clamped bar t_double
    [watcher; logger] 150%Z 100%Z (with_foo clamped_watched)
    (after (with_foo clamped_watched)
       [validator_called foo bar (total clamp) (λ _, 0%Z) 150%Z]))
    as (E & _ & _).
  - reflexivity.
  - repeat constructor.
  - reflexivity.
  - reflexivity.
  - eexists. split; [exact E|reflexivity].
Defined.

(** After the bidirectional link of [foo.bar] and [other.bar], the
    assignment [foo.bar = 5] exceeds every call depth. *)
Lemma xlink_assignment_never_returns_witness :
  ∃ m', XLINK 1 t_property_ref t_property_ref foo bar other bar two_owners
        = Returned tt m'
    ∧ ∀ n, assign n foo bar t_double 5%Z m' = OutOfFuel.
Proof.
  destruct (xlink_assignment_never_returns 0 t_property_ref t_property_ref
    foo bar other bar two_owners) as (m' & E & H).
  - by eexists.
  - by eexists.
  - reflexivity.
  - reflexivity.
  - reflexivity.
  - reflexivity.
  - exists m'. split; [exact E|]. intros n. apply H.
Defined.

(** The copy of an owner with an observer is not an owner without
    callbacks. *)
Lemma copy_construct_keeps_callbacks :
  ¬ (∀ ow : Foo,
       m_observers (copy_construct ow) = ∅
       ∧ m_validators (copy_construct ow) = ∅
       ∧ m_value (copy_construct ow) = m_value ow).
Proof.
  intros H. destruct (H watched) as (Hobs & _ & _).
  apply (f_equal (λ reg, reg !! bar)) in Hobs. discriminate Hobs.
Qed.

(** The copy of [watched] at address 2 has [watcher] registered: an
    assignment to its [bar] calls it. *)
Example copied_owner_notifies :
  ∃ m', bind (construct_from copy_construct foo 2)
          (λ _, assign 1 2 bar t_double 5%Z) (with_foo watched)
        = Returned 5%Z m'
    ∧ calls m'
      = [observer_called 2 bar watcher (<[bar := 5%Z]> (λ _, 0%Z));
         said ("watcher"%string, 5%Z)].
Proof. eexists. split; reflexivity. Qed.

(** [clamp] is registered for [double]; an assignment from an lvalue asks
    for [double&]. *)
Lemma mismatched_validator_fails_fast_witness :
  assign 1 foo bar t_double_ref 150%Z (with_foo clamped)
  = Thrown bad_any_cast (with_foo clamped).
Proof.
  destruct (mismatched_validator_fails_fast 0 foo clamped bar t_double_ref
    [] [] (make_any t_double (total clamp)) 150%Z 150%Z (with_foo clamped)
    (with_foo clamped)) as (_ & E & _).
  - reflexivity.
  - reflexivity.
  - discriminate.
  - reflexivity.
  - exact E.
Defined.

(** [thrower] throws after [watcher] has run: 5 stays stored and [logger]
    is not called. *)
Lemma observer_exception_propagates_witness :
  ∃ m', assign 1 foo bar t_double 5%Z (with_foo booby_trapped)
        = Thrown (user_exception 7) m'
    ∧ property m' foo bar = Some 5%Z
    ∧ calls m'
      = [observer_called foo bar watcher (<[bar := 5%Z]> (λ _, 0%Z));
         said ("watcher"%string, 5%Z);
         observer_called foo bar thrower (<[bar := 5%Z]> (λ _, 0%Z));
         said ("thrower"%string, 5%Z)].
Proof.
  destruct (observer_exception_propagates 0 foo booby_trapped bar t_double
    [watcher] [logger] thrower 5%Z 5%Z (user_exception 7)
    (with_foo booby_trapped) (with_foo booby_trapped)) as (E & _).
  - reflexivity.
  - reflexivity.
  - reflexivity.
  - repeat constructor.
  - repeat constructor.
  - eexists. split_and!; [exact E|reflexivity..].
Defined.

(** [refuse_negative] throws on -8, the double of -4: [foo.bar] keeps its
    value and [watcher] is not called. *)
Lemma assign_keeps_value_when_validator_throws_witness :
  ∃ m', assign 1 foo bar t_double (-4)%Z (with_foo guarded)
        = Thrown (user_exception 1) m'
    ∧ owners m' = owners (with_foo guarded)
    ∧ calls m'
      = [validator_called foo bar (total twice) (λ _, 0%Z) (-4)%Z;
         validator_called foo bar refuse_negative (λ _, 0%Z) (-8)%Z].
Proof.
  destruct (assign_keeps_value_when_validator_throws 0 foo bar t_double
    (-4)%Z (user_exception 1) (with_foo guarded)
    (after (with_foo guarded)
       [validator_called foo bar (total twice) (λ _, 0%Z) (-4)%Z;
        validator_called foo bar refuse_negative (λ _, 0%Z) (-8)%Z]))
    as (E & Ho & _).
  - reflexivity.
  - eexists. split_and!; [exact E|exact Ho|reflexivity].
Defined.

(** [foo] has [clamp] and [watcher] on [bar], [twice] and [logger] on
    [baz].  After [XUNOBSERVE(foo, bar)] an assignment to [bar] calls
    [clamp] only, and one to [baz] still calls [twice] and [logger];
    after [XUNVALIDATE(foo, bar)] an assignment to [bar] calls [watcher]
    only. *)
Lemma unregistering_is_local_witness :
  (∃ m', assign 1 foo bar t_double 150%Z
           (with_owner foo (unobserve bar busy) (with_foo busy))
         = Returned 100%Z m'
         ∧ calls m'
           = [validator_called foo bar (total clamp) (λ _, 0%Z) 150%Z])
  ∧ (∃ m', assign 1 foo baz t_double 150%Z
             (with_owner foo (unobserve bar busy) (with_foo busy))
           = Returned 300%Z m'
           ∧ calls m'
             = [validator_called foo baz (total twice) (λ _, 0%Z) 150%Z;
                observer_called foo baz logger
                  (<[baz := 300%Z]> (λ _, 0%Z));
                said ("logger"%string, 0%Z)])
  ∧ (∃ m', assign 1 foo bar t_double 150%Z
             (with_owner foo (unvalidate bar busy) (with_foo busy))
           = Returned 150%Z m'
           ∧ calls m'
             = [observer_called foo bar watcher
                  (<[bar := 150%Z]> (λ _, 0%Z));
                said ("watcher"%string, 150%Z)]).
Proof.
  destruct (unregistering_is_local 0 foo busy bar baz t_double 150%Z
    (with_foo busy)) as ((_ & E1 & _ & _ & E2) & (_ & E3 & _)).
  - reflexivity.
  - discriminate.
  - repeat constructor.
  - repeat constructor.
  - split_and!; eexists;
      (split; [first [rewrite E1|rewrite E2|rewrite E3]; reflexivity
              |reflexivity]).
Defined.

(** ** Further properties on the sample instance *)

Lemma registration_appends_witness :
  callbacks_of (m_observers (observe bar logger watched)) bar
  = [watcher; logger]
  ∧ m_observers (observe bar logger watched) !! baz = None
  ∧ callbacks_of (m_validators (validate bar t_double (total twice) clamped))
      bar
    = [make_any t_double (total clamp); make_any t_double (total twice)].
Proof.
  destruct (registration_appends watched bar baz logger t_double
    (total twice)) as ((E1 & E2 & _) & _); [discriminate|].
  destruct (registration_appends clamped bar baz logger t_double
    (total twice)) as (_ & (E3 & _)); [discriminate|].
  split_and!; [by rewrite E1|by rewrite E2|by rewrite E3].
Defined.

Lemma unregistration_undoes_registration_witness :
  unobserve bar (observe bar watcher blank) = blank
  ∧ unvalidate bar (validate bar t_double (total clamp) blank) = blank.
Proof.
  destruct (unregistration_undoes_registration blank bar watcher t_double
    (total clamp)) as (_ & E1 & _ & E2); [reflexivity..|].
  by split.
Defined.

Lemma registrations_commute_witness :
  observe bar watcher (observe baz logger blank)
  = observe baz logger (observe bar watcher blank).
Proof.
  destruct (registrations_commute blank bar baz bar watcher logger t_double
    t_double (total clamp) (total twice)) as (E & _); [discriminate|].
  exact E.
Defined.

(** [foo.bar = 150] on the clamped and watched [foo]: 100 in [foo.bar],
    0 still in [foo.baz] and in [other.bar]. *)
Lemma assign_changes_one_property_witness :
  ∃ m', assign 1 foo bar t_double 150%Z (with_foo clamped_watched)
        = Returned 100%Z m'
    ∧ property m' foo bar = Some 100%Z
    ∧ property m' foo baz = Some 0%Z
    ∧ property m' other bar = Some 0%Z
    ∧ read foo bar m' = Returned 100%Z m'.
Proof.
  destruct (assign_changes_one_property 0 foo clamped_watched bar t_double
    150%Z 100%Z (with_foo clamped_watched)
    (after (with_foo clamped_watched)
       [validator_called foo bar (total clamp) (λ _, 0%Z) 150%Z]))
    as (m' & E & P & _ & R).
  - reflexivity.
  - repeat constructor.
  - reflexivity.
  - exists m'. split_and!; [exact E|by rewrite P..|exact R].
Defined.

(** [foo.bar = foo.bar] with 3 in [foo.bar]: [watcher] is called. *)
Lemma assign_same_value_still_notifies_witness :
  ∃ m', bind (read foo bar) (λ x, assign 1 foo bar t_double x)
          (with_foo three)
        = Returned 3%Z m'
    ∧ property m' foo bar = Some 3%Z
    ∧ calls m'
      = [observer_called foo bar watcher
           (<[bar := 3%Z]> (<[bar := 3%Z]> (λ _, 0%Z)));
         said ("watcher"%string, 3%Z)].
Proof.
  destruct (assign_same_value_still_notifies 0 foo three bar t_double
    (with_foo three)) as (m' & E & P & C).
  - reflexivity.
  - reflexivity.
  - repeat constructor.
  - exists m'. split_and!; [exact E|by rewrite P|by rewrite C].
Defined.

(** [foo.bar = 7] on the vetoed [foo]: [twice] makes 14 of it,
    [current bar] answers 3, and [watcher] is called. *)
Lemma vetoing_validator_keeps_value_witness :
  ∃ m', assign 1 foo bar t_double 7%Z (with_foo vetoed) = Returned 3%Z m'
    ∧ property m' foo bar = Some 3%Z
    ∧ calls m'
      = [validator_called foo bar (total twice) (<[bar := 3%Z]> (λ _, 0%Z))
           7%Z;
         validator_called foo bar (total (current bar))
           (<[bar := 3%Z]> (λ _, 0%Z)) 14%Z;
         observer_called foo bar watcher
           (<[bar := 3%Z]> (<[bar := 3%Z]> (λ _, 0%Z)));
         said ("watcher"%string, 3%Z)].
Proof.
  destruct (vetoing_validator_keeps_value 0 foo three bar t_double [twice]
    7%Z (with_foo vetoed)) as (m' & E & P & C).
  - reflexivity.
  - repeat constructor.
  - reflexivity.
  - exists m'. split_and!; [exact E|by rewrite P|by rewrite C].
Defined.

(** [refuse_negative] throws on -8: [clamp], registered after it, is not
    called. *)
Lemma throwing_validator_stops_chain_witness :
  assign 1 foo bar t_double (-4)%Z (with_foo guarded_more)
  = Thrown (user_exception 1)
      (after (with_foo guarded_more)
         [validator_called foo bar (total twice) (λ _, 0%Z) (-4)%Z;
          validator_called foo bar refuse_negative (λ _, 0%Z) (-8)%Z]).
Proof.
  destruct (throwing_validator_stops_chain 0 foo guarded_more bar t_double
    [make_any t_double (total twice)] [make_any t_double (total clamp)]
    (make_any t_double refuse_negative) (-4)%Z (-8)%Z (user_exception 1)
    (with_foo guarded_more)
    (after (with_foo guarded_more)
       [validator_called foo bar (total twice) (λ _, 0%Z) (-4)%Z]))
    as (E & _).
  - reflexivity.
  - reflexivity.
  - reflexivity.
  - reflexivity.
  - reflexivity.
  - exact E.
Defined.

(** [XDLINK(foo, bar, other, bar)] when [clamp] validates [other.bar]. *)
Lemma xdlink_onto_mismatched_validator_witness :
  XDLINK 1 t_property_ref foo bar other bar validated_target
  = Thrown bad_any_cast validated_target.
Proof.
  apply (xdlink_onto_mismatched_validator 0 t_property_ref foo bar other bar
    three clamped (make_any t_double (total clamp)) [] validated_target).
  - reflexivity.
  - reflexivity.
  - reflexivity.
  - discriminate.
Defined.

(** After [XDLINK(foo, bar, other, baz)] with 3 in [foo.bar],
    [other.baz = 9] leaves 3 in [foo.bar]. *)
Lemma xdlink_is_one_way_witness :
  ∃ m1 m2, XDLINK 1 t_property_ref foo bar other baz (with_foo three)
           = Returned tt m1
    ∧ assign 1 other baz t_double 9%Z m1 = Returned 9%Z m2
    ∧ property m2 other baz = Some 9%Z
    ∧ property m2 foo bar = Some 3%Z.
Proof.
  destruct (xdlink_is_one_way 0 t_property_ref foo bar other baz
    (with_foo three)) as (m1 & E & F).
  - by eexists.
  - by eexists.
  - discriminate.
  - reflexivity.
  - constructor.
  - destruct (F t_double 9%Z) as (m2 & E2 & PB & PA).
    exists m1, m2. split_and!; [exact E|exact E2|exact PB|by rewrite PA].
Defined.

(** After the link and [XUNOBSERVE(foo, bar)], [foo.bar = 7] leaves 3 in
    [other.baz] and calls nothing. *)
Lemma xunobserve_breaks_link_witness :
  ∃ m2 m3, bind (XDLINK 1 t_property_ref foo bar other baz)
             (λ _, XUNOBSERVE foo bar) (with_foo three)
           = Returned tt m2
    ∧ assign 1 foo bar t_double 7%Z m2 = Returned 7%Z m3
    ∧ property m3 foo bar = Some 7%Z
    ∧ property m3 other baz = Some 3%Z
    ∧ calls m3 = calls m2.
Proof.
  destruct (xunobserve_breaks_link 0 t_property_ref foo bar other baz
    (with_foo three)) as (m2 & E & F).
  - by eexists.
  - by eexists.
  - discriminate.
  - reflexivity.
  - constructor.
  - pose proof E as E'. vm_compute in E'. injection E' as <-.
    destruct (F t_double 7%Z 7%Z _ eq_refl) as (m3 & E3 & PA & PB & C).
    eexists _, m3. split_and!; [exact E|exact E3|exact PA|by rewrite PB|
      exact C].
Defined.

(** [foo.bar] linked to [other.baz] linked to [foo.baz]: [foo.bar = 7]
    puts 7 in all three. *)
Lemma xdlink_chain_follows_witness :
  ∃ m2 m3, bind (XDLINK 1 t_property_ref foo bar other baz)
             (λ _, XDLINK 1 t_property_ref other baz foo baz)
             (with_foo three)
           = Returned tt m2
    ∧ property m2 foo baz = Some 3%Z
    ∧ assign 3 foo bar t_double 7%Z m2 = Returned 7%Z m3
    ∧ property m3 foo bar = Some 7%Z
    ∧ property m3 other baz = Some 7%Z
    ∧ property m3 foo baz = Some 7%Z.
Proof.
  destruct (xdlink_chain_follows 0 t_property_ref t_property_ref foo bar
    other baz foo baz (with_foo three)) as (m2 & E & _ & PC & F).
  - by eexists.
  - by eexists.
  - by eexists.
  - discriminate.
  - discriminate.
  - discriminate.
  - reflexivity.
  - reflexivity.
  - repeat constructor.
  - constructor.
  - constructor.
  - pose proof E as E'. vm_compute in E'. injection E' as <-.
    destruct (F t_double 7%Z 7%Z _ eq_refl) as (m3 & E3 & PA & PB & PC').
    eexists _, m3.
    split_and!; [exact E|by rewrite PC|exact E3|exact PA|exact PB|exact PC'].
Defined.

(** [thrower] observes the target of the link: [foo.bar = 7] leaves by
    its exception with 7 in [foo.bar] and in [other.baz]. *)
Lemma observer_exception_crosses_link_witness :
  ∃ m', assign 2 foo bar t_double 7%Z trapped_link
        = Thrown (user_exception 7) m'
    ∧ property m' foo bar = Some 7%Z
    ∧ property m' other baz = Some 7%Z.
Proof.
  apply (observer_exception_crosses_link 0 t_property_ref foo bar other baz
    t_double 7%Z 7%Z (user_exception 7) trapped_link trapped_link
    [watcher] [logger] [watcher] thrower).
  - by eexists.
  - by eexists.
  - discriminate.
  - reflexivity.
  - reflexivity.
  - repeat constructor.
  - reflexivity.
  - reflexivity.
  - repeat constructor.
  - repeat constructor.
Defined.

(** The copy of the clamped and watched [foo] at address 2:
    [copy.bar = 150] calls [clamp], [watcher] and [logger]. *)
Lemma copied_owner_calls_source_observers_witness :
  ∃ m', bind (construct_from copy_construct foo 2)
          (λ _, assign 1 2 bar t_double 150%Z) (with_foo clamped_watched)
        = Returned 100%Z m'
    ∧ calls m'
      = [validator_called 2 bar (total clamp) (λ _, 0%Z) 150%Z;
         observer_called 2 bar watcher (<[bar := 100%Z]> (λ _, 0%Z));
         said ("watcher"%string, 100%Z);
         observer_called 2 bar logger (<[bar := 100%Z]> (λ _, 0%Z));
         said ("logger"%string, 100%Z)]
    ∧ property m' foo bar = Some 0%Z.
Proof.
  destruct (copied_owner_calls_source_observers 0 foo 2 clamped_watched bar
    t_double 150%Z 100%Z (with_foo clamped_watched)
    (after (with_owner 2 (copy_construct clamped_watched)
              (with_foo clamped_watched))
       [validator_called 2 bar (total clamp) (λ _, 0%Z) 150%Z]))
    as (m' & E & C & _ & Ho).
  - reflexivity.
  - discriminate.
  - repeat constructor.
  - reflexivity.
  - exists m'. split_and!; [exact E|by rewrite C|].
    unfold property. by rewrite Ho.
Defined.

Lemma fresh_owner_stores_proposal_witness :
  ∃ m', bind (construct_at 2 (λ _, 1%Z))
          (λ _, assign 1 2 bar t_double 5%Z) two_owners
        = Returned 5%Z m'
    ∧ calls m' = []
    ∧ property m' 2 bar = Some 5%Z
    ∧ property m' 2 baz = Some 1%Z.
Proof.
  destruct (fresh_owner_stores_proposal 0 2 (λ _, 1%Z) bar baz t_double 5%Z
    two_owners) as (m' & E & C & PI & PJ); [discriminate|].
  exists m'. split_and!; [exact E|exact C|exact PI|exact PJ].
Defined.

(** On the owner type [static_foo], [foo.bar = 150] from an rvalue
    stores 100, from an lvalue it stores 150. *)
Lemma static_validator_is_chosen_by_type_witness :
  (∃ m', static_assign (assign 0) static_foo foo bar t_double 150%Z
           two_owners
         = Returned 100%Z m'
         ∧ property m' foo bar = Some 100%Z)
  ∧ (∃ m', static_assign (assign 0) static_foo foo bar t_double_ref 150%Z
             two_owners
           = Returned 150%Z m'
           ∧ property m' foo bar = Some 150%Z).
Proof.
  destruct (static_validator_is_chosen_by_type (assign 0) static_foo foo
    blank bar t_double t_double_ref clamp 150%Z two_owners) as (E1 & E2).
  - reflexivity.
  - reflexivity.
  - reflexivity.
  - repeat constructor.
  - split; eexists; (split; [eassumption|reflexivity]).
Defined.

(** [XLINK(foo, bar, other, baz)] with 3 in [foo.bar]. *)
Lemma xlink_copies_source_witness :
  ∃ m', XLINK 1 t_property_ref t_property_ref foo bar other baz
          (with_foo three)
        = Returned tt m'
    ∧ property m' foo bar = Some 3%Z
    ∧ property m' other baz = Some 3%Z.
Proof.
  destruct (xlink_copies_source 0 t_property_ref t_property_ref foo bar
    other baz (with_foo three)) as (m' & E & PA & PB).
  - by eexists.
  - by eexists.
  - reflexivity.
  - constructor.
  - exists m'. split_and!; [exact E|by rewrite PA|by rewrite PB].
Defined.

(** [resetter] assigns 0 to [foo.bar] whenever [foo.bar] is assigned. *)
Lemma self_assigning_observer_never_returns_witness :
  observers_at (with_foo resetting) foo bar = [watcher; resetter]
  ∧ ∀ n, assign n foo bar t_double 5%Z (with_foo resetting) = OutOfFuel.
Proof.
  split; [reflexivity|]. intros n.
  apply (self_assigning_observer_never_returns n foo bar t_double t_double
    5%Z (with_foo resetting) [watcher] [] resetter (λ _, 0%Z) (λ _, Ret)).
  - by eexists.
  - reflexivity.
  - reflexivity.
  - repeat constructor.
  - reflexivity.
Defined.

(** [x = 150; foo.bar = x] on the [foo] that clamps and doubles: the
    assignment asks for validators of [double&]. *)
Lemma assign_of_other_type_throws_witness :
  assign 1 foo bar t_double_ref 150%Z (with_foo clamped_twice)
  = Thrown bad_any_cast (with_foo clamped_twice)
  ∧ property (with_foo clamped_twice) foo bar = Some 0%Z.
Proof.
  split; [|reflexivity].
  apply (assign_of_other_type_throws 0 foo watched bar t_double t_double_ref
    clamp [twice] 150%Z (with_foo clamped_twice)).
  - reflexivity.
  - discriminate.
  - reflexivity.
Defined.



End sample.
